(** * BAG2_TEMPLATES_EC: the abstract analog mosfet technology class
      and the templates built on it

    A shallow embedding of
    - [abs_templates_ec/analog_mos/core.py]  (class [MOSTech]),
    - [abs_templates_ec/analog_mos/mos.py]   (classes [AnalogMOSBase], [AnalogMOSExt]),
    - [abs_templates_ec/mos_char.py]         (class [Transistor]).

    Python values that the code handles as [Any] are values of [pyval];
    Python [int]s are [Z]; Python [float]s are binary64 floats; a method that
    can raise returns a [result].  [AnalogBase], the superclass of
    [Transistor], is in [analog_core.py], which is not among the sources:
    what is needed of it is modelled from the specification and marked so. *)

From Stdlib Require Import ZArith List Floats Sorted.
From stdpp Require Import base option list gmap strings pretty.

Set Warnings "-register-all,-inexact-float".

#[local] Open Scope string_scope.
#[local] Open Scope Z_scope.

(** ** Python values *)

Inductive pyval : Type :=
  | PNone
  | PBool (b : bool)
  | PInt (z : Z)
  | PFloat (f : float)
  | PStr (s : string)
  | PTuple (items : list pyval)
  | PDict (entries : gmap string pyval).

Abbreviation pydict := (gmap string pyval).

(** Exceptions.  The builtin ones the embedded code can raise by itself are
    constructors; [Raised name] is any other exception class, by name (the
    means a technology class has to signal an error of its own). *)
Inductive pyexn : Type :=
  | KeyError (key : string)
  | TypeError (what : string)
  | ValueError (what : string)
  | OverflowError (what : string)
  | ZeroDivisionError
  | Raised (name : string).

Inductive result (A : Type) : Type :=
  | Ok (a : A)
  | Raise (e : pyexn).

Arguments Ok {A} a.
Arguments Raise {A} e.

#[export] Instance result_ret : MRet result := fun A a => Ok a.
#[export] Instance result_bind : MBind result := fun A B f m =>
  match m with
  | Ok a => f a
  | Raise e => Raise e
  end.
#[export] Instance result_fmap : FMap result := fun A B f m =>
  match m with
  | Ok a => Ok (f a)
  | Raise e => Raise e
  end.

(** [d[key]] on a dictionary. *)
Definition getitem {V} (d : gmap string V) (key : string) : result V :=
  match d !! key with
  | Some v => Ok v
  | None => Raise (KeyError key)
  end.

(** Truth value of a Python object, as [if] and [or] test it. *)
Definition py_truthy (v : pyval) : bool :=
  match v with
  | PNone => false
  | PBool b => b
  | PInt z => negb (z =? 0)
  | PFloat f => negb (PrimFloat.eqb f 0%float)
  | PStr s => negb (String.eqb s "")
  | PTuple items => match items with [] => false | _ => true end
  | PDict entries => negb (bool_decide (entries = ∅))
  end.

(** ** Floats: the part of Python's numeric tower that
    [int(round(lch / layout_unit / res))] goes through *)

(** [float(z)]: nearest binary64, ties to even; too large an int overflows. *)
Definition float_of_int (z : Z) : result float :=
  let f := SF2Prim (binary_normalize prec emax z 0 false) in
  if PrimFloat.is_infinity f
  then Raise (OverflowError "int too large to convert to float")
  else Ok f.

(** The float operand of a true division. *)
Definition as_float (v : pyval) : result float :=
  match v with
  | PFloat f => Ok f
  | PInt z => float_of_int z
  | PBool b => float_of_int (if b then 1 else 0)
  | _ => Raise (TypeError "unsupported operand type(s) for /")
  end.

(** [a / b] on floats. *)
Definition float_truediv (a b : float) : result float :=
  if PrimFloat.eqb b 0%float then Raise ZeroDivisionError
  else Ok (a / b)%float.

(** [round(x)] of a float with no [ndigits]: the nearest integer, ties to
    even, as an [int]. *)
Definition round_half_even (m e : Z) : Z :=
  if 0 <=? e then m * 2 ^ e
  else
    let d := 2 ^ (- e) in
    let q := m / d in
    let r := m mod d in
    if 2 * r <? d then q
    else if d <? 2 * r then q + 1
    else if Z.even q then q else q + 1.

Definition py_round (x : float) : result Z :=
  match Prim2SF x with
  | S754_zero _ => Ok 0
  | S754_infinity _ => Raise (OverflowError "cannot convert float infinity to integer")
  | S754_nan => Raise (ValueError "cannot convert float NaN to integer")
  | S754_finite s m e =>
      let n := round_half_even (Z.pos m) e in
      Ok (if s then - n else n)
  end.

(** ** The routing grid (bag.layout.routing.RoutingGrid)

    An external collaborator; only the two attributes the templates read. *)
Record RoutingGrid : Type := {
  resolution : float;
  layout_unit : float;
}.

(** [int(round(lch / self.grid.layout_unit / res))] *)
Definition lch_to_unit (grid : RoutingGrid) (lch : pyval) : result Z :=
  a ← as_float lch;
  b ← float_truediv a (layout_unit grid);
  c ← float_truediv b (resolution grid);
  py_round c.

(** ** core.py: class MOSTech

    The class is abstract and all its methods are class methods: [cls] is the
    technology class the call is dispatched on.  A technology is a value of
    [MOSTech], one field per abstract method; the methods of [MOSTech] that
    have a body of their own ([get_dum_conn_track_info], ...) are functions
    of [cls] below.

    The constants dictionary of [get_mos_tech_constants] holds the entries
    its docstring lists, all of them integers (resolution units or counts);
    the other dictionaries hold [Any]. *)

(** What a template has drawn so far: the drawing sink of [TemplateBase]. *)
Definition canvas : Type := list pyval.

Record MOSTech : Type := {
  get_mos_tech_constants : Z → result (gmap string Z);
  get_analog_unit_fg : result pyval;
  draw_zero_extension : result bool;
  get_dum_conn_pitch : result Z;
  get_dum_conn_layer : result Z;
  get_mos_conn_layer : result Z;
  get_dig_conn_layer : result Z;
  get_min_fg_decap : Z → result Z;
  get_tech_constant : string → result pyval;
  get_mos_pitch : bool → result pyval;
  (* grid, lch_unit, guard_ring_nf, top_layer, is_end *)
  get_edge_info : RoutingGrid → Z → Z → Z → bool → result pydict;
  (* lch_unit, w, mos_type, threshold, fg *)
  get_mos_info : Z → pyval → pyval → pyval → pyval → result pydict;
  (* lch_unit, top_ext_info, bot_ext_info *)
  get_valid_extension_widths : Z → pyval → pyval → result (list Z);
  (* lch_unit, w, bot_mtype, top_mtype, bot_thres, top_thres, fg,
     top_ext_info, bot_ext_info *)
  get_ext_info : Z → pyval → pyval → pyval → pyval → pyval → pyval →
                 pyval → pyval → result pydict;
  (* template, layout_info *)
  draw_mos : canvas → pyval → result canvas;
  (* template, mos_info, edge_mode, gate_tracks, options *)
  draw_dum_connection : canvas → pydict → Z → list Z → pydict → result canvas;
}.

(** The bodies the abstract methods have in [MOSTech] itself.  They run when
    a method is called on [MOSTech] (class methods need no instance) or
    through [super()].  [get_analog_unit_fg] has a docstring and no
    statement: it returns [None]. *)
Definition MOSTech_abc : MOSTech := {|
  get_mos_tech_constants := λ lch_unit, Ok ∅;
  get_analog_unit_fg := Ok PNone;
  draw_zero_extension := Ok false;
  get_dum_conn_pitch := Ok 1;
  get_dum_conn_layer := Ok 1;
  get_mos_conn_layer := Ok 3;
  get_dig_conn_layer := Ok 1;
  get_min_fg_decap := λ lch_unit, Ok 2;
  get_tech_constant := λ name, Ok (PInt 0);
  get_mos_pitch := λ unit_mode, Ok (PInt 1);
  get_edge_info := λ grid lch_unit guard_ring_nf top_layer is_end, Ok ∅;
  get_mos_info := λ lch_unit w mos_type threshold fg, Ok ∅;
  get_valid_extension_widths := λ lch_unit top_ext_info bot_ext_info, Ok [0];
  get_ext_info := λ lch_unit w bot_mtype top_mtype bot_thres top_thres fg
                    top_ext_info bot_ext_info, Ok ∅;
  draw_mos := λ template layout_info, Ok template;
  draw_dum_connection := λ template mos_info edge_mode gate_tracks options,
                           Ok template;
|}.

Definition get_dum_conn_track_info (cls : MOSTech) (lch_unit : Z) : result (Z * Z) :=
  mos_constants ← get_mos_tech_constants cls lch_unit;
  sd_pitch ← getitem mos_constants "sd_pitch";
  dum_conn_w ← getitem mos_constants "dum_conn_w";
  num_sd_per_track ← getitem mos_constants "num_sd_per_track";
  Ok (sd_pitch * num_sd_per_track - dum_conn_w, dum_conn_w).

Definition get_mos_conn_track_info (cls : MOSTech) (lch_unit : Z) : result (Z * Z) :=
  mos_constants ← get_mos_tech_constants cls lch_unit;
  sd_pitch ← getitem mos_constants "sd_pitch";
  mos_conn_w ← getitem mos_constants "mos_conn_w";
  num_sd_per_track ← getitem mos_constants "num_sd_per_track";
  Ok (sd_pitch * num_sd_per_track - mos_conn_w, mos_conn_w).

Definition get_num_fingers_per_sd (cls : MOSTech) (lch_unit : Z) : result Z :=
  mos_constants ← get_mos_tech_constants cls lch_unit;
  getitem mos_constants "num_sd_per_track".

Definition get_sd_pitch (cls : MOSTech) (lch_unit : Z) : result Z :=
  mos_constants ← get_mos_tech_constants cls lch_unit;
  getitem mos_constants "sd_pitch".

Definition get_left_sd_xc (cls : MOSTech) (grid : RoutingGrid)
    (lch_unit guard_ring_nf top_layer : Z) (is_end : bool) : result pyval :=
  edge_info ← get_edge_info cls grid lch_unit guard_ring_nf top_layer is_end;
  getitem edge_info "edge_width".

(** The set of extension widths a list returned by
    [get_valid_extension_widths] stands for, as its docstring reads it: the
    widths in the list, and every width from the last element on
    ([[0, 2, 5]] stands for 0, 2, 5, 6, 7, ...). *)
Definition ext_width_valid (widths : list Z) (w : Z) : bool :=
  bool_decide (w ∈ widths) ||
  match last widths with
  | Some top => top <=? w
  | None => false
  end.

(** Sorted in increasing order, no width twice. *)
Definition strictly_increasing (widths : list Z) : Prop :=
  StronglySorted Z.lt widths.

(** ** mos.py: the templates AnalogMOSBase and AnalogMOSExt

    A template is the record of its attributes; a method that assigns
    attributes returns the template it leaves.  An exception ends the call:
    the attributes assigned before it was raised are not kept. *)

(** A keyword argument a method names in its signature, taken out of the
    parameters [draw_layout] unpacks; calling without it is a [TypeError].
    Entries the signature does not name go to [kwargs] and are not read. *)
Definition kwarg (params : pydict) (name : string) : result pyval :=
  match params !! name with
  | Some v => Ok v
  | None => Raise (TypeError "missing required positional argument")
  end.

Module AnalogMOSBase.

(** The attributes of an instance.  [grid] and [params] are set by
    [TemplateBase.__init__]; [drawn] is the geometry added so far. *)
Record t : Type := {
  grid : RoutingGrid;
  params : pydict;
  _tech_cls : MOSTech;
  prim_top_layer : Z;
  _layout_info : pyval;
  _ext_top_info : pyval;
  _ext_bot_info : pyval;
  _g_conn_y : pyval;
  _d_conn_y : pyval;
  _sd_yc : pyval;
  drawn : canvas;
}.

(** [__init__]; [tech_cls] is
    [self.grid.tech_info.tech_params['layout']['mos_tech_class']]. *)
Definition init (grid : RoutingGrid) (tech_cls : MOSTech) (params : pydict)
    : result t :=
  layer ← get_mos_conn_layer tech_cls;
  Ok {| grid := grid; params := params; _tech_cls := tech_cls;
        prim_top_layer := layer;
        _layout_info := PNone;
        _ext_top_info := PNone; _ext_bot_info := PNone;
        _g_conn_y := PNone; _d_conn_y := PNone; _sd_yc := PNone;
        drawn := [] |}.

Definition get_g_conn_y (self : t) : pyval := _g_conn_y self.
Definition get_d_conn_y (self : t) : pyval := _d_conn_y self.
Definition get_ext_top_info (self : t) : pyval := _ext_top_info self.
Definition get_ext_bot_info (self : t) : pyval := _ext_bot_info self.
Definition get_sd_yc (self : t) : pyval := _sd_yc self.
Definition get_edge_layout_info (self : t) : pyval := _layout_info self.

Definition get_params_info : gmap string string :=
  {[ "lch" := "channel length, in meters.";
     "w" := "transistor width, in meters/number of fins.";
     "mos_type" := "transistor type, either 'pch' or 'nch'.";
     "threshold" := "transistor threshold flavor." ]}.

Section Keys.

(** [str(v)], as ['%s' % v] formats a value, and [bag.float_to_si_string]. *)
Variable py_str : pyval → string.
Variable float_to_si_string : pyval → result string.

(** ['%s_l%s_w%s_%s' % (mos_type, lstr, wstr, th)] *)
Definition get_layout_basename (self : t) : result string :=
  mos_type ← getitem (params self) "mos_type";
  lch ← getitem (params self) "lch";
  lstr ← float_to_si_string lch;
  w ← getitem (params self) "w";
  wstr ← float_to_si_string w;
  th ← getitem (params self) "threshold";
  Ok (py_str mos_type +:+ "_l" +:+ lstr +:+ "_w" +:+ wstr +:+ "_" +:+ py_str th).

Definition compute_unique_key (self : t) : result string :=
  get_layout_basename self.

End Keys.

Definition _draw_layout_helper (self : t) (lch w mos_type threshold : pyval)
    : result t :=
  lch_unit ← lch_to_unit (grid self) lch;
  fg ← get_analog_unit_fg (_tech_cls self);
  mos_info ← get_mos_info (_tech_cls self) lch_unit w mos_type threshold fg;
  layout_info ← getitem mos_info "layout_info";
  ext_top_info ← getitem mos_info "ext_top_info";
  ext_bot_info ← getitem mos_info "ext_bot_info";
  sd_yc ← getitem mos_info "sd_yc";
  g_conn_y ← getitem mos_info "g_conn_y";
  d_conn_y ← getitem mos_info "d_conn_y";
  drawn' ← draw_mos (_tech_cls self) (drawn self) layout_info;
  Ok {| grid := grid self; params := params self;
        _tech_cls := _tech_cls self;
        prim_top_layer := prim_top_layer self;
        _layout_info := layout_info;
        _ext_top_info := ext_top_info; _ext_bot_info := ext_bot_info;
        _g_conn_y := g_conn_y; _d_conn_y := d_conn_y; _sd_yc := sd_yc;
        drawn := drawn' |}.

(** [draw_layout]: the helper is called with the entries of [self.params]
    as keyword arguments. *)
Definition draw_layout (self : t) : result t :=
  lch ← kwarg (params self) "lch";
  w ← kwarg (params self) "w";
  mos_type ← kwarg (params self) "mos_type";
  threshold ← kwarg (params self) "threshold";
  _draw_layout_helper self lch w mos_type threshold.

(** What [draw_layout] assigns and draws; the rest of a template (grid,
    parameters, technology class) is what it was built from. *)
Definition block (self : t)
    : pyval * pyval * pyval * pyval * pyval * pyval * canvas :=
  (_layout_info self, _ext_top_info self, _ext_bot_info self,
   _sd_yc self, _g_conn_y self, _d_conn_y self, drawn self).

(** The same template built from other parameters. *)
Definition with_params (self : t) (params' : pydict) : t :=
  {| grid := grid self; params := params';
     _tech_cls := _tech_cls self;
     prim_top_layer := prim_top_layer self;
     _layout_info := _layout_info self;
     _ext_top_info := _ext_top_info self;
     _ext_bot_info := _ext_bot_info self;
     _g_conn_y := _g_conn_y self; _d_conn_y := _d_conn_y self;
     _sd_yc := _sd_yc self;
     drawn := drawn self |}.

End AnalogMOSBase.

Module AnalogMOSExt.

Record t : Type := {
  grid : RoutingGrid;
  params : pydict;
  _tech_cls : MOSTech;
  prim_top_layer : Z;
  _fg : pyval;
  _layout_info : pyval;
  drawn : canvas;
}.

(** [__init__]; [params] is [self.params] as [TemplateBase.__init__] has
    set it. *)
Definition init (grid : RoutingGrid) (tech_cls : MOSTech) (params : pydict)
    : result t :=
  is_laygo ← getitem params "is_laygo";
  '(layer, fg) ← (if py_truthy is_laygo
                  then layer ← get_dig_conn_layer tech_cls;
                       fg ← get_analog_unit_fg tech_cls;
                       Ok (layer, fg)
                  else layer ← get_mos_conn_layer tech_cls;
                       fg ← get_analog_unit_fg tech_cls;
                       Ok (layer, fg));
  Ok {| grid := grid; params := params; _tech_cls := tech_cls;
        prim_top_layer := layer; _fg := fg;
        _layout_info := PNone; drawn := [] |}.

Definition get_default_param_values : pydict :=
  {[ "is_laygo" := PBool false ]}.

Definition get_params_info : gmap string string :=
  {[ "lch" := "channel length, in meters.";
     "w" := "extension width, in layout units/number of fins.";
     "bot_mtype" := "bottom transistor/substrate type";
     "top_mtype" := "top transistor/substrate type.";
     "bot_thres" := "bottom transistor/substrate threshold flavor.";
     "top_thres" := "top transistor/substrate threshold flavor.";
     "top_ext_info" := "top extension info.";
     "bot_ext_info" := "bottom extension info.";
     "is_laygo" := "True if this extension is used in LaygoBase." ]}.

Definition get_edge_layout_info (self : t) : pyval := _layout_info self.

Section Keys.

(** [str(v)], as ['%s' % v] formats a value, [bag.float_to_si_string], and
    [TemplateBase.to_immutable_id]. *)
Variable py_str : pyval → string.
Variable float_to_si_string : pyval → result string.
Variable to_immutable_id : pyval → result pyval.

(** ['ext_b%s_t%s_l%s_w%s_b%s_t%s' % (bot_mtype, top_mtype, lstr, wstr,
    bot_thres, top_thres)], with ['laygo_'] in front for a Laygo
    extension. *)
Definition get_layout_basename (self : t) : result string :=
  bot_mtype ← getitem (params self) "bot_mtype";
  top_mtype ← getitem (params self) "top_mtype";
  bot_thres ← getitem (params self) "bot_thres";
  top_thres ← getitem (params self) "top_thres";
  lch ← getitem (params self) "lch";
  lstr ← float_to_si_string lch;
  w ← getitem (params self) "w";
  wstr ← float_to_si_string w;
  let ans := "ext_b" +:+ py_str bot_mtype +:+ "_t" +:+ py_str top_mtype +:+
             "_l" +:+ lstr +:+ "_w" +:+ wstr +:+
             "_b" +:+ py_str bot_thres +:+ "_t" +:+ py_str top_thres in
  is_laygo ← getitem (params self) "is_laygo";
  Ok (if py_truthy is_laygo then "laygo_" +:+ ans else ans).

Definition compute_unique_key (self : t) : result pyval :=
  basename ← get_layout_basename self;
  top_ext_info ← getitem (params self) "top_ext_info";
  bot_ext_info ← getitem (params self) "bot_ext_info";
  to_immutable_id (PTuple [PStr basename; top_ext_info; bot_ext_info]).

End Keys.

Definition _draw_layout_helper (self : t)
    (lch w bot_mtype top_mtype bot_thres top_thres top_ext_info bot_ext_info : pyval)
    : result t :=
  lch_unit ← lch_to_unit (grid self) lch;
  ext_info ← get_ext_info (_tech_cls self) lch_unit w bot_mtype top_mtype
                bot_thres top_thres (_fg self) top_ext_info bot_ext_info;
  drawn' ← draw_mos (_tech_cls self) (drawn self) (PDict ext_info);
  Ok {| grid := grid self; params := params self;
        _tech_cls := _tech_cls self;
        prim_top_layer := prim_top_layer self; _fg := _fg self;
        _layout_info := PDict ext_info;
        drawn := drawn' |}.

(** [draw_layout]: the helper is called with the entries of [self.params]
    as keyword arguments. *)
Definition draw_layout (self : t) : result t :=
  lch ← kwarg (params self) "lch";
  w ← kwarg (params self) "w";
  bot_mtype ← kwarg (params self) "bot_mtype";
  top_mtype ← kwarg (params self) "top_mtype";
  bot_thres ← kwarg (params self) "bot_thres";
  top_thres ← kwarg (params self) "top_thres";
  top_ext_info ← kwarg (params self) "top_ext_info";
  bot_ext_info ← kwarg (params self) "bot_ext_info";
  _draw_layout_helper self lch w bot_mtype top_mtype bot_thres top_thres
    top_ext_info bot_ext_info.

(** What [draw_layout] assigns and draws. *)
Definition block (self : t) : pyval * canvas :=
  (_layout_info self, drawn self).

(** The same template on another technology class. *)
Definition with_tech_cls (self : t) (tech_cls : MOSTech) : t :=
  {| grid := grid self; params := params self;
     _tech_cls := tech_cls;
     prim_top_layer := prim_top_layer self; _fg := _fg self;
     _layout_info := _layout_info self;
     drawn := drawn self |}.

End AnalogMOSExt.

(** ** mos_char.py: class Transistor

    [Transistor] extends [AnalogBase] and draws by calling its methods.  The
    embedding of [draw_layout] is the sequence of those calls with their
    arguments, in program order. *)

(** The arguments of [make_track_id(mos_type, row_idx, tr_type, tr_idx)];
    [tr_type] is ['g'] or ['ds']. *)
Inductive track_type : Type := TrGate | TrDrainSource.

Record track_request : Type := {
  tr_mos_type : string;
  tr_row_idx : Z;
  tr_type : track_type;
  tr_idx : Z;
}.

Inductive base_call : Type :=
  (* draw_base(lch, fg_tot, ptap_w, ntap_w, nw_list, nth_list, pw_list,
               pth_list, num_track_sep, ng_tracks=, nds_tracks=, pg_tracks=,
               pds_tracks=) *)
  | DrawBase (lch : pyval) (fg_tot : Z) (ptap_w ntap_w : pyval)
      (nw_list nth_list pw_list pth_list : list pyval) (gds_space : Z)
      (ng_tracks nds_tracks pg_tracks pds_tracks : list Z)
  (* mos_ports = draw_mos_conn(mos_type, row_idx, col_idx, fg, sdir, ddir,
                               min_ds_cap=) *)
  | DrawMosConn (mos_type : string) (row_idx col_idx fg sdir ddir : Z)
      (min_ds_cap : bool)
  (* tr_id = make_track_id(...); warr = connect_to_tracks(mos_ports[port],
     tr_id); add_pin(pin, warr, show=True) *)
  | PinOnTrack (pin : string) (port : string) (tr_id : track_request)
  (* ptap_wire_arrs, ntap_wire_arrs = fill_dummy() *)
  | FillDummy
  (* add_pin('b', ptap_wire_arrs, label=, show=True);
     add_pin('b', ntap_wire_arrs, label=, show=True) *)
  | BodyPins (label : string)
  (* add_pin_primitive(global_gnd_name, global_gnd_layer, global_gnd_box) *)
  | GlobalGroundPin (name : string) (layer : pyval).

Module Transistor.

(** The parameters of [get_params_info], typed as it documents them. *)
Record params : Type := {
  mos_type : string;
  lch : pyval;
  w : pyval;
  fg : Z;
  fg_dum : Z;
  threshold : pyval;
  ptap_w : pyval;
  ntap_w : pyval;
  num_track_sep : Z;
  min_ds_cap : bool;
  global_gnd_layer : option pyval;
  global_gnd_name : string;
  draw_other : bool;
  nd_tracks : Z;
}.

Definition draw_layout (self : params) : list base_call :=
  let mos_type := mos_type self in
  let fg := fg self in
  let fg_dum := fg_dum self in
  let num_track_sep := num_track_sep self in
  let draw_other := draw_other self in
  let nd_tracks := nd_tracks self in
  let fg_tot := fg + 2 * fg_dum in
  let num_gate_tr := 2 + num_track_sep in
  let is_n := String.eqb mos_type "nch" in
  let is_p := String.eqb mos_type "pch" in
  let n_row := is_n || draw_other in
  let p_row := is_p || draw_other in
  let nw_list := if n_row then [w self] else [] in
  let nth_list := if n_row then [threshold self] else [] in
  let ng_tracks := if n_row then [num_gate_tr] else [] in
  let nds_tracks := if n_row then [if is_n then nd_tracks else 1] else [] in
  let pw_list := if p_row then [w self] else [] in
  let pth_list := if p_row then [threshold self] else [] in
  let pg_tracks := if p_row then [num_gate_tr] else [] in
  let pds_tracks := if p_row then [if is_p then nd_tracks else 1] else [] in
  let '(sdir, ddir) := if is_p then (2, 0) else (0, 2) in
  let make_track_id tr_type tr_idx :=
    {| tr_mos_type := mos_type; tr_row_idx := 0;
       tr_type := tr_type; tr_idx := tr_idx |} in
  [ DrawBase (lch self) fg_tot (ptap_w self) (ntap_w self)
      nw_list nth_list pw_list pth_list num_track_sep
      ng_tracks nds_tracks pg_tracks pds_tracks;
    DrawMosConn mos_type 0 fg_dum fg sdir ddir (min_ds_cap self);
    PinOnTrack "g" "g" (make_track_id TrGate (num_gate_tr - 1));
    PinOnTrack "d" "d" (make_track_id TrDrainSource (nd_tracks / 2));
    PinOnTrack "s" "s" (make_track_id TrGate 0);
    FillDummy;
    BodyPins (if draw_other then "b:" else "b") ]
  ++ match global_gnd_layer self with
     | Some layer => [GlobalGroundPin (global_gnd_name self) layer]
     | None => []
     end.

End Transistor.

(** The finger count [draw_layout] hands to [draw_base]. *)
Definition row_fingers (calls : list base_call) : option Z :=
  match calls with
  | DrawBase _ fg_tot _ _ _ _ _ _ _ _ _ _ _ :: _ => Some fg_tot
  | _ => None
  end.

(** The track a pin is put on. *)
Fixpoint pin_track (pin : string) (calls : list base_call) : option track_request :=
  match calls with
  | [] => None
  | PinOnTrack p _ tr_id :: rest =>
      if String.eqb p pin then Some tr_id else pin_track pin rest
  | _ :: rest => pin_track pin rest
  end.

(** ** AnalogBase, the row composer

    [mos_char.py] imports [AnalogBase] from [analog_core.py], which is not
    among the source files.  The definitions of this part follow the
    specification. *)

Module AnalogBase.

(** Modelled from the spec: the [BlockInfo] record of the Block Info Builder
    (built by [AnalogBase.draw_base] in the missing [analog_core.py]).  Spec
    section 3: block width, the Y coordinate of the source/drain junction,
    and [gate_track_y_range] and [drain_track_y_range], each a pair of ints.
    The extension interfaces and the geometry are left out. *)
Record BlockInfo : Type := {
  block_width : Z;
  sd_junction_y : Z;
  gate_track_y_range : Z * Z;
  drain_track_y_range : Z * Z;
}.

(** Modelled from the spec: the invariant of [BlockInfo] (section 3), whose
    builder is in the missing [analog_core.py]: in each range bottom <= top,
    and the gate and drain ranges of a block never overlap. *)
Definition BlockInfo_inv (b : BlockInfo) : Prop :=
  let '(g_bot, g_top) := gate_track_y_range b in
  let '(d_bot, d_top) := drain_track_y_range b in
  g_bot ≤ g_top ∧ d_bot ≤ d_top ∧ (g_top < d_bot ∨ d_top < g_bot).

(** Modelled from the spec: the block width computed by [build_block]
    (section 4.2; [AnalogBase.draw_base] is missing):
    block width = finger_count * sd_pitch. *)
Definition build_block_width (sd_pitch finger_count : Z) : Z :=
  finger_count * sd_pitch.

(** Modelled from the spec: the Track/Connection Resolver behind
    [AnalogBase.make_track_id] (section 4.5; missing [analog_core.py]).  A
    request is resolved against the block's gate or drain Y range into a
    track index; track [t] of the layer lies at Y coordinate
    [t * track_pitch].  Request [tr_idx] gets the [tr_idx]-th track of the
    range, counted from its bottom; when there is no such track in the range
    the resolver fails with NoLegalTrack. *)
Definition resolve_track (track_pitch : Z) (b : BlockInfo) (req : track_request)
    : result Z :=
  let '(bot, top) := match tr_type req with
                     | TrGate => gate_track_y_range b
                     | TrDrainSource => drain_track_y_range b
                     end in
  let first := - ((- bot) / track_pitch) in
  let t := first + tr_idx req in
  if (0 <=? tr_idx req) && (t * track_pitch <=? top) then Ok t
  else Raise (Raised "NoLegalTrack").

(** Modelled from the spec: the resolution of a dummy connection track
    (section 4.5 (d); done by [AnalogBase] in the missing [analog_core.py]
    before it calls [draw_dum_connection]).  The legal dummy tracks are the
    multiples of [get_dum_conn_pitch()]; a requested index is rounded up to
    the nearest of them, never down. *)
Definition resolve_dum_track (cls : MOSTech) (requested : Z) : result Z :=
  pitch ← get_dum_conn_pitch cls;
  Ok (- ((- requested) / pitch) * pitch).

End AnalogBase.

(** ** Technologies used in the examples *)

(** A subclass that overrides [get_valid_extension_widths] only. *)
Definition override_valid_extension_widths (cls : MOSTech)
    (f : Z → pyval → pyval → result (list Z)) : MOSTech := {|
  get_mos_tech_constants := get_mos_tech_constants cls;
  get_analog_unit_fg := get_analog_unit_fg cls;
  draw_zero_extension := draw_zero_extension cls;
  get_dum_conn_pitch := get_dum_conn_pitch cls;
  get_dum_conn_layer := get_dum_conn_layer cls;
  get_mos_conn_layer := get_mos_conn_layer cls;
  get_dig_conn_layer := get_dig_conn_layer cls;
  get_min_fg_decap := get_min_fg_decap cls;
  get_tech_constant := get_tech_constant cls;
  get_mos_pitch := get_mos_pitch cls;
  get_edge_info := get_edge_info cls;
  get_mos_info := get_mos_info cls;
  get_valid_extension_widths := f;
  get_ext_info := get_ext_info cls;
  draw_mos := draw_mos cls;
  draw_dum_connection := draw_dum_connection cls;
|}.

(** [MOSTech] with the list of the docstring of
    [get_valid_extension_widths]. *)
Definition DocWidthsTech : MOSTech :=
  override_valid_extension_widths MOSTech_abc (λ _ _ _, Ok [0; 2; 5]).

(** A small complete technology: every dictionary has the entries the
    docstrings of [MOSTech] ask for, dummy connections go on every other
    track, and a row unit has two fingers. *)
Definition DemoTech : MOSTech := {|
  get_mos_tech_constants := λ lch_unit,
    Ok {[ "sd_pitch" := 90; "mos_conn_w" := 32; "dum_conn_w" := 40;
          "num_sd_per_track" := 1 ]};
  get_analog_unit_fg := Ok (PInt 2);
  draw_zero_extension := Ok false;
  get_dum_conn_pitch := Ok 2;
  get_dum_conn_layer := Ok 1;
  get_mos_conn_layer := Ok 3;
  get_dig_conn_layer := Ok 1;
  get_min_fg_decap := λ lch_unit, Ok 2;
  get_tech_constant := λ name, Raise (KeyError name);
  get_mos_pitch := λ unit_mode, Ok (PInt 48);
  get_edge_info := λ grid lch_unit guard_ring_nf top_layer is_end,
    Ok {[ "edge_width" := PInt (90 * (2 + guard_ring_nf)) ]};
  get_mos_info := λ lch_unit w mos_type threshold fg,
    Ok {[ "layout_info" := PDict {[ "lch_unit" := PInt lch_unit; "w" := w;
                                    "mos_type" := mos_type; "fg" := fg ]};
          "ext_top_info" := PTuple [PInt 1; w];
          "ext_bot_info" := PTuple [PInt 0; w];
          "sd_yc" := PInt 96;
          "g_conn_y" := PTuple [PInt 0; PInt 60];
          "d_conn_y" := PTuple [PInt 100; PInt 240] ]};
  get_valid_extension_widths := λ lch_unit top_ext_info bot_ext_info,
    Ok [0; 2; 5];
  get_ext_info := λ lch_unit w bot_mtype top_mtype bot_thres top_thres fg
                    top_ext_info bot_ext_info,
    Ok {[ "lch_unit" := PInt lch_unit; "w" := w; "fg" := fg ]};
  draw_mos := λ template layout_info, Ok (template ++ [layout_info])%list;
  draw_dum_connection := λ template mos_info edge_mode gate_tracks options,
    Ok (template ++ [PTuple (PInt <$> gate_tracks)])%list;
|}.

(** The grid of the examples: layout unit 1e-6 m, resolution 0.001. *)
Definition demo_grid : RoutingGrid :=
  {| resolution := 0.001; layout_unit := 1e-6 |}.

(** Stand-ins for [str], [float_to_si_string] and [to_immutable_id] in the
    examples.  [demo_str] agrees with [str] on strings, ints, booleans and
    [None]; numbers are their own SI string; values are their own immutable
    id. *)
Definition demo_str (v : pyval) : string :=
  match v with
  | PStr s => s
  | PInt z => pretty z
  | PBool b => if b then "True" else "False"
  | PNone => "None"
  | _ => "<object>"
  end.

Definition demo_si_string (v : pyval) : result string :=
  match v with
  | PInt _ | PFloat _ | PBool _ => Ok (demo_str v)
  | _ => Raise (TypeError "must be real number")
  end.

Definition demo_immutable_id (v : pyval) : result pyval := Ok v.

(** Parameters and templates of the examples. *)
Definition demo_mos_params : pydict :=
  {[ "lch" := PFloat 16e-9; "w" := PInt 4;
     "mos_type" := PStr "nch"; "threshold" := PStr "lvt" ]}.

Definition demo_ext_params (w : Z) : pydict :=
  {[ "lch" := PFloat 16e-9; "w" := PInt w;
     "bot_mtype" := PStr "nch"; "top_mtype" := PStr "pch";
     "bot_thres" := PStr "lvt"; "top_thres" := PStr "hvt";
     "top_ext_info" := PTuple [PInt 1; PInt 4];
     "bot_ext_info" := PTuple [PInt 0; PInt 4];
     "is_laygo" := PBool false ]}.

(** An [AnalogMOSBase] as [__init__] leaves it. *)
Definition new_mos (grid : RoutingGrid) (tech_cls : MOSTech) (layer : Z)
    (params : pydict) : AnalogMOSBase.t :=
  {| AnalogMOSBase.grid := grid;
     AnalogMOSBase.params := params;
     AnalogMOSBase._tech_cls := tech_cls;
     AnalogMOSBase.prim_top_layer := layer;
     AnalogMOSBase._layout_info := PNone;
     AnalogMOSBase._ext_top_info := PNone;
     AnalogMOSBase._ext_bot_info := PNone;
     AnalogMOSBase._g_conn_y := PNone;
     AnalogMOSBase._d_conn_y := PNone;
     AnalogMOSBase._sd_yc := PNone;
     AnalogMOSBase.drawn := [] |}.

(** An [AnalogMOSExt] as [__init__] leaves it. *)
Definition new_ext (grid : RoutingGrid) (tech_cls : MOSTech) (layer : Z)
    (fg : pyval) (params : pydict) : AnalogMOSExt.t :=
  {| AnalogMOSExt.grid := grid;
     AnalogMOSExt.params := params;
     AnalogMOSExt._tech_cls := tech_cls;
     AnalogMOSExt.prim_top_layer := layer;
     AnalogMOSExt._fg := fg;
     AnalogMOSExt._layout_info := PNone;
     AnalogMOSExt.drawn := [] |}.

(** Templates on the demo technology that have drawn already, on a grid of
    their own. *)
Definition drawn_mos : AnalogMOSBase.t :=
  {| AnalogMOSBase.grid := {| resolution := 0.005; layout_unit := 1e-6 |};
     AnalogMOSBase.params := demo_mos_params;
     AnalogMOSBase._tech_cls := DemoTech;
     AnalogMOSBase.prim_top_layer := 3;
     AnalogMOSBase._layout_info := PInt 7;
     AnalogMOSBase._ext_top_info := PTuple [PInt 1; PInt 4];
     AnalogMOSBase._ext_bot_info := PTuple [PInt 0; PInt 4];
     AnalogMOSBase._g_conn_y := PTuple [PInt 0; PInt 60];
     AnalogMOSBase._d_conn_y := PTuple [PInt 100; PInt 240];
     AnalogMOSBase._sd_yc := PInt 96;
     AnalogMOSBase.drawn := [PInt 7] |}.

Definition drawn_ext : AnalogMOSExt.t :=
  {| AnalogMOSExt.grid := {| resolution := 0.005; layout_unit := 1e-6 |};
     AnalogMOSExt.params := demo_ext_params 3;
     AnalogMOSExt._tech_cls := DemoTech;
     AnalogMOSExt.prim_top_layer := 1;
     AnalogMOSExt._fg := PInt 2;
     AnalogMOSExt._layout_info := PDict ∅;
     AnalogMOSExt.drawn := [PDict ∅] |}.

(** The scenario of the specification: an nch row with 4 fingers, 1 dummy
    on each side, 2 gate tracks and 1 drain track, and a block for it at
    sd_pitch 90. *)
Definition demo_transistor : Transistor.params :=
  {| Transistor.mos_type := "nch"; Transistor.lch := PFloat 16e-9;
     Transistor.w := PInt 4; Transistor.fg := 4; Transistor.fg_dum := 1;
     Transistor.threshold := PStr "lvt";
     Transistor.ptap_w := PInt 6; Transistor.ntap_w := PInt 6;
     Transistor.num_track_sep := 0; Transistor.min_ds_cap := false;
     Transistor.global_gnd_layer := None;
     Transistor.global_gnd_name := "gnd!";
     Transistor.draw_other := false; Transistor.nd_tracks := 1 |}.

Definition demo_block : AnalogBase.BlockInfo :=
  {| AnalogBase.block_width := AnalogBase.build_block_width 90 6;
     AnalogBase.sd_junction_y := 96;
     AnalogBase.gate_track_y_range := (0, 60);
     AnalogBase.drain_track_y_range := (100, 240) |}.

(** ** Reading the constants dictionary *)

(** The first of [keys], in the order the code reads them, that the
    dictionary lacks. *)
Definition first_absent (mos_constants : gmap string Z) (keys : list string)
    : option string :=
  List.find (λ key, bool_decide (mos_constants !! key = None)) keys.

Ltac first_absent_cases H :=
  repeat match type of H with
    | context [bool_decide (?d !! ?key = None)] =>
        let E := fresh "E" in
        destruct (d !! key) eqn:E; simpl in H
    end;
  try discriminate H.

(** ** mos_char.py: class TransistorGD

    The drawing calls of [TransistorGD.draw_layout], in program order, with
    the exception that ends them when there is one.  The calls that
    [Transistor] makes too are [base_call]s. *)

(** [n / 2] for an int [n] under true division: the nearest float to the
    quotient, ties to even; a quotient too large for a float overflows. *)
Definition int_truediv_2 (n : Z) : result float :=
  let f := SF2Prim (binary_normalize prec emax n (-1) false) in
  if PrimFloat.is_infinity f
  then Raise (OverflowError "integer division result too large for a float")
  else Ok f.

Inductive gd_call : Type :=
  | Base (c : base_call)
  (* tr_id = make_track_id(mos_type, row_idx, tr_type, tr_idx, width=);
     warr = connect_to_tracks(mos_ports[port], tr_id);
     add_pin(pin, warr, show=True) *)
  | WidePinOnTrack (pin port mos_type : string) (row_idx : Z)
      (tr_type : track_type) (tr_idx : pyval) (width : Z)
  (* connect_to_substrate(sub_type, mos_ports[port]) *)
  | ConnectToSubstrate (sub_type port : string)
  (* add_pin(pin, ptap_wire_arrs, label=, show=True);
     add_pin(pin, ntap_wire_arrs, label=, show=True) *)
  | SubstratePins (pin label : string).

Module TransistorGD.

(** The parameters of [get_params_info], typed as it documents them. *)
Record params : Type := {
  mos_type : string;
  lch : pyval;
  w : pyval;
  fg : Z;
  fg_dum : Z;
  threshold : pyval;
  ptap_w : pyval;
  ntap_w : pyval;
  num_track_sep : Z;
  min_ds_cap : bool;
  global_gnd_layer : option pyval;
  global_gnd_name : string;
  draw_other : bool;
  nd_tracks : Z;
  hm_width : Z;
  hm_cur_width : Z;
}.

Definition draw_layout (self : params) : list gd_call * option pyexn :=
  let mos_type := mos_type self in
  let fg := fg self in
  let fg_dum := fg_dum self in
  let num_track_sep := num_track_sep self in
  let draw_other := draw_other self in
  let hm_width := hm_width self in
  let hm_cur_width := hm_cur_width self in
  let fg_tot := fg + 2 * fg_dum in
  let nd_tracks := Z.max (nd_tracks self) hm_cur_width in
  let is_n := String.eqb mos_type "nch" in
  let is_p := String.eqb mos_type "pch" in
  let n_row := is_n || draw_other in
  let p_row := is_p || draw_other in
  let nw_list := if n_row then [w self] else [] in
  let nth_list := if n_row then [threshold self] else [] in
  let ng_tracks := if n_row then [hm_width] else [] in
  let nds_tracks :=
    if n_row then [if is_n then nd_tracks else hm_cur_width] else [] in
  let pw_list := if p_row then [w self] else [] in
  let pth_list := if p_row then [threshold self] else [] in
  let pg_tracks := if p_row then [hm_width] else [] in
  let pds_tracks :=
    if p_row then [if is_p then nd_tracks else hm_cur_width] else [] in
  let '(sdir, ddir) := if is_p then (2, 0) else (0, 2) in
  let drawn :=
    [ Base (DrawBase (lch self) fg_tot (ptap_w self) (ntap_w self)
              nw_list nth_list pw_list pth_list num_track_sep
              ng_tracks nds_tracks pg_tracks pds_tracks);
      Base (DrawMosConn mos_type 0 fg_dum fg sdir ddir (min_ds_cap self)) ] in
  match int_truediv_2 (hm_width - 1) with
  | Raise e => (drawn, Some e)
  | Ok g_idx =>
      ((drawn ++
       [ WidePinOnTrack "g" "g" mos_type 0 TrGate (PFloat g_idx) hm_width;
         WidePinOnTrack "d" "d" mos_type 0 TrDrainSource
           (PInt (nd_tracks / 2)) hm_cur_width;
         ConnectToSubstrate (if is_p then "ntap" else "ptap") "s";
         Base FillDummy;
         SubstratePins "s" (if draw_other then "s:" else "s") ]
       ++ match global_gnd_layer self with
          | Some layer => [Base (GlobalGroundPin (global_gnd_name self) layer)]
          | None => []
          end)%list,
       None)
  end.

End TransistorGD.

(** [TransistorGD] with the parameters of [demo_transistor], a gate wire
    three tracks wide and a drain wire two tracks wide. *)
Definition demo_transistor_gd : TransistorGD.params :=
  {| TransistorGD.mos_type := "pch"; TransistorGD.lch := PFloat 16e-9;
     TransistorGD.w := PInt 4; TransistorGD.fg := 4; TransistorGD.fg_dum := 1;
     TransistorGD.threshold := PStr "lvt";
     TransistorGD.ptap_w := PInt 6; TransistorGD.ntap_w := PInt 6;
     TransistorGD.num_track_sep := 0; TransistorGD.min_ds_cap := false;
     TransistorGD.global_gnd_layer := None;
     TransistorGD.global_gnd_name := "gnd!";
     TransistorGD.draw_other := true; TransistorGD.nd_tracks := 1;
     TransistorGD.hm_width := 3; TransistorGD.hm_cur_width := 2 |}.

(** ** test_scripts: StrongArmLatch and StackDriver

    The two templates extend [LaygoBase] and draw by calling its methods;
    as for [Transistor], the embedding of [draw_layout] is the sequence of
    those calls with their arguments, in program order. *)

(** The arguments of one [add_laygo_primitive(blk_type, loc=(col, row), ...)];
    a keyword argument the call does not give is [None]. *)
Record laygo_prim : Type := {
  lp_blk_type : string;
  lp_loc : Z * Z;
  lp_nx : option Z;
  lp_spx : option Z;
  lp_split_s : option bool;
  lp_end_mode : option Z;
}.

(** The instance a call of [add_laygo_primitive] returns: the call's
    arguments, and its rank among the calls of the method for the identity
    of the object. *)
Record laygo_inst : Type := {
  inst_id : nat;
  inst_prim : laygo_prim;
}.

(** [inst.get_all_port_pins(name)], kept symbolic. *)
Definition port_pins : Type := laygo_inst * string.

Inductive laygo_track : Type :=
  (* make_track_id(row_idx, tr_type, tr_idx, width=) *)
  | MakeTrackId (row_idx : Z) (tr_type : string) (tr_idx : Z) (width : option Z)
  (* TrackID(layer_id, track_idx) *)
  | TrackID (layer_id track_idx : Z).

Inductive laygo_call : Type :=
  (* set_row_types(row_list, orient_list, thres_list, draw_boundaries,
                   end_mode, num_g_tracks, num_gb_tracks, num_ds_tracks,
                   guard_ring_nf=, row_kwargs=) *)
  | SetRowTypes (row_list orient_list : list string) (thres_list : list pyval)
      (draw_boundaries : pyval) (end_mode : Z)
      (num_g_tracks num_gb_tracks num_ds_tracks : list Z)
      (guard_ring_nf : Z) (row_kwargs : option (list pydict))
  | AddLaygoPrimitive (inst : laygo_inst)
  (* set_laygo_size(num_col=) *)
  | SetLaygoSize (num_col : Z)
  | FillSpace
  | DrawBoundaryCells
  (* connect_to_tracks(wires, tid, min_len_mode=) *)
  | ConnectToTracks (wires : list port_pins) (tid : laygo_track)
      (min_len_mode : option Z)
  (* add_pin(net, warrs, show=), warrs being what
     connect_to_tracks(wires, tid) returned *)
  | AddPin (net : string) (wires : list port_pins) (tid : laygo_track)
      (show : pyval).

(** What the templates read of [LaygoBase]: the attributes [conn_layer] and
    [fg2d_s_short], and the method [get_track_index(row_idx, tr_type,
    tr_idx)]. *)
Record LaygoBase : Type := {
  conn_layer : Z;
  fg2d_s_short : pyval;
  get_track_index : Z → string → Z → Z;
}.

Definition add_laygo_primitive (id : nat) (blk_type : string) (loc : Z * Z)
    (nx spx : option Z) (split_s : option bool) (end_mode : option Z)
    : laygo_inst :=
  {| inst_id := id;
     inst_prim := {| lp_blk_type := blk_type; lp_loc := loc; lp_nx := nx;
                     lp_spx := spx; lp_split_s := split_s;
                     lp_end_mode := end_mode |} |}.

Definition get_all_port_pins (inst : laygo_inst) (name : string) : port_pins :=
  (inst, name).

Module StrongArmLatch.

Record params : Type := {
  threshold : pyval;
  draw_boundaries : pyval;
  num_nblk : Z;
  num_pblk : Z;
  num_dblk : Z;
  show_pins : pyval;
}.

Definition draw_layout (base : LaygoBase) (self : params) : list laygo_call :=
  let threshold := threshold self in
  let draw_boundaries := draw_boundaries self in
  let num_pblk := num_pblk self in
  let num_nblk := num_nblk self in
  let num_dblk := num_dblk self in
  let show_pins := show_pins self in
  let row_list := ["ptap"; "nch"; "nch"; "nch"; "pch"; "ntap"] in
  let orient_list := ["R0"; "R0"; "MX"; "MX"; "R0"; "MX"] in
  let thres_list := replicate 6 threshold in
  let num_g_tracks := [0; 1; 2; 2; 1; 0] in
  let num_gb_tracks := [0; 1; 1; 1; 2; 0] in
  let num_ds_tracks := [2; 0; 1; 1; 1; 2] in
  let end_mode := if py_truthy draw_boundaries then 15 else 0 in
  (* determine total number of blocks *)
  let tot_pblk := num_pblk + 2 in
  let tot_nblk := num_nblk in
  let tot_blk_max := Z.max tot_pblk tot_nblk in
  let tot_blk := 1 + 2 * (tot_blk_max + num_dblk) in
  let colp := num_dblk + tot_blk_max - tot_pblk in
  let coln := num_dblk + tot_blk_max - tot_nblk in
  let blk_type := "fg2d" in
  let one id blk col row := add_laygo_primitive id blk (col, row) None None None None in
  let arr id blk col row nx := add_laygo_primitive id blk (col, row) (Some nx) (Some 1) None None in
  let split id blk col row := add_laygo_primitive id blk (col, row) None None (Some true) None in
  (* nwell tap *)
  let nw_tap := arr 0%nat "sub" 0 5 tot_blk in
  (* pmos inverter row *)
  let cur_col := 0 in
  let pdum0 := arr 1%nat blk_type cur_col 4 colp in
  let cur_col := cur_col + colp in
  let rst_midp := one 2%nat blk_type cur_col 4 in
  let cur_col := cur_col + 1 in
  let rst_outp := one 3%nat blk_type cur_col 4 in
  let cur_col := cur_col + 1 in
  let invp_outp := arr 4%nat blk_type cur_col 4 num_pblk in
  let cur_col := cur_col + num_pblk in
  let pdum1 := one 5%nat blk_type cur_col 4 in
  let cur_col := cur_col + 1 in
  let invp_outn := arr 6%nat blk_type cur_col 4 num_pblk in
  let cur_col := cur_col + num_pblk in
  let rst_outn := one 7%nat blk_type cur_col 4 in
  let cur_col := cur_col + 1 in
  let rst_midn := one 8%nat blk_type cur_col 4 in
  let cur_col := cur_col + 1 in
  let pdum2 := arr 9%nat blk_type cur_col 4 colp in
  let pdum_list := [(pdum0, 0); (pdum1, 0); (pdum2, 0)] in
  (* nmos inverter row *)
  let cur_col := 0 in
  let ndum0 := arr 10%nat blk_type cur_col 3 (coln - 1) in
  let cur_col := cur_col + (coln - 1) in
  let ndum1 := split 11%nat blk_type cur_col 3 in
  let cur_col := cur_col + 1 in
  let invn_outp := arr 12%nat blk_type cur_col 3 num_nblk in
  let cur_col := cur_col + num_nblk in
  let tail_sw1 := one 13%nat "stack2d" cur_col 3 in
  let cur_col := cur_col + 1 in
  let invn_outn := arr 14%nat blk_type cur_col 3 num_nblk in
  let cur_col := cur_col + num_nblk in
  let ndum2 := split 15%nat blk_type cur_col 3 in
  let cur_col := cur_col + 1 in
  let ndum3 := arr 16%nat blk_type cur_col 3 (coln - 1) in
  (* nmos input row *)
  let cur_col := 0 in
  let ndum4 := arr 17%nat blk_type cur_col 2 (coln - 1) in
  let cur_col := cur_col + (coln - 1) in
  let ndum5 := split 18%nat blk_type cur_col 2 in
  let cur_col := cur_col + 1 in
  let inn := arr 19%nat blk_type cur_col 2 num_nblk in
  let cur_col := cur_col + num_nblk in
  let tail_sw2 := one 20%nat "stack2d" cur_col 2 in
  let cur_col := cur_col + 1 in
  let inp := arr 21%nat blk_type cur_col 2 num_nblk in
  let cur_col := cur_col + num_nblk in
  let ndum6 := split 22%nat blk_type cur_col 2 in
  let cur_col := cur_col + 1 in
  let ndum7 := arr 23%nat blk_type cur_col 2 (coln - 1) in
  (* nmos tail row *)
  let cur_col := 0 in
  let ndum8 := arr 24%nat blk_type cur_col 1 coln in
  let cur_col := cur_col + coln in
  let tailn := arr 25%nat blk_type cur_col 1 num_nblk in
  let cur_col := cur_col + num_nblk in
  let ndum9 := one 26%nat blk_type cur_col 1 in
  let cur_col := cur_col + 1 in
  let tailp := arr 27%nat blk_type cur_col 1 num_nblk in
  let cur_col := cur_col + num_nblk in
  let ndum10 := arr 28%nat blk_type cur_col 1 coln in
  let ndum_list :=
    [(ndum0, 0); (ndum1, 1); (ndum2, -1); (ndum3, 0);
     (ndum4, 0); (ndum5, 1); (ndum6, -1); (ndum7, 0);
     (ndum8, 0); (ndum9, 0); (ndum10, 0)] in
  (* pwell tap *)
  let pw_tap := arr 29%nat "sub" 0 0 tot_blk in
  let pins := get_all_port_pins in
  (* connect ground *)
  let source_vss :=
    ([pins pw_tap "VSS"; pins tailn "s"; pins tailp "s"] ++
     flat_map (λ '(inst, mode),
                 if (mode : Z) =? 0 then [pins inst "s"] else []) ndum_list)%list in
  let drain_vss :=
    flat_map (λ '(inst, mode), [pins inst "d"; pins inst "g"]) ndum_list in
  let source_vss_tid := MakeTrackId 0 "ds" 0 (Some 1) in
  let drain_vss_tid := MakeTrackId 0 "ds" 1 (Some 1) in
  (* connect tail *)
  let tail := [pins tailp "d"; pins tailn "d"; pins inp "d"; pins inn "d"] in
  let tail_tid := MakeTrackId 1 "gb" 0 None in
  (* connect tail clk *)
  let tclk_tid := MakeTrackId 1 "g" 0 None in
  let tclk := [pins tailp "g"; pins tailn "g"] in
  (* connect inputs *)
  let in_tid := MakeTrackId 2 "g" 1 None in
  (* connect tail switch clk *)
  let tsw2 := MakeTrackId 2 "g" 0 None in
  (* get output/mid horizontal track id *)
  let hm_layer := conn_layer base + 1 in
  let nout_idx := get_track_index base 3 "gb" 0 in
  let mid_idx := get_track_index base 3 "ds" 0 in
  let mid_idx := Z.min mid_idx (nout_idx - 1) in
  let nout_tid := TrackID hm_layer nout_idx in
  let mid_tid := TrackID hm_layer mid_idx in
  (* connect nmos mid *)
  let nmidp := [pins inn "s"; pins invn_outp "s"] in
  let nmidn := [pins inp "s"; pins invn_outn "s"] in
  (* connect pmos mid *)
  let pmid_tid := MakeTrackId 4 "gb" 1 None in
  (* connect pmos output *)
  let pout_tid := MakeTrackId 4 "gb" 0 None in
  let poutp := [pins invp_outp "d"; pins rst_outp "d"] in
  let poutn := [pins invp_outn "d"; pins rst_outn "d"] in
  (* connect clock in inverter row *)
  let pclk := [pins rst_midp "g"; pins rst_midn "g";
               pins rst_outp "g"; pins rst_outn "g"] in
  let nclk := [pins tail_sw1 "g"] in
  let pclk_tid := MakeTrackId 4 "g" 0 None in
  let nclk_tid := MakeTrackId 3 "g" 0 None in
  (* connect inverter gate *)
  let invg_tid := MakeTrackId 3 "g" 1 None in
  let invgp := [pins invn_outp "g"; pins invp_outp "g"] in
  let invgn := [pins invn_outn "g"; pins invp_outn "g"] in
  (* connect vdd *)
  let source_vdd :=
    ([pins nw_tap "VDD"; pins invp_outp "s"; pins invp_outn "s"] ++
     flat_map (λ '(inst, _), [pins inst "s"]) pdum_list)%list in
  let drain_vdd :=
    flat_map (λ '(inst, _), [pins inst "d"; pins inst "g"])
      (pdum_list : list (laygo_inst * Z)) in
  let source_vdd_tid := MakeTrackId 5 "ds" 0 (Some 1) in
  let drain_vdd_tid := MakeTrackId 5 "ds" 1 (Some 1) in
  [ SetRowTypes row_list orient_list thres_list draw_boundaries end_mode
      num_g_tracks num_gb_tracks num_ds_tracks 0 None;
    AddLaygoPrimitive nw_tap;
    AddLaygoPrimitive pdum0; AddLaygoPrimitive rst_midp;
    AddLaygoPrimitive rst_outp; AddLaygoPrimitive invp_outp;
    AddLaygoPrimitive pdum1; AddLaygoPrimitive invp_outn;
    AddLaygoPrimitive rst_outn; AddLaygoPrimitive rst_midn;
    AddLaygoPrimitive pdum2;
    AddLaygoPrimitive ndum0; AddLaygoPrimitive ndum1;
    AddLaygoPrimitive invn_outp; AddLaygoPrimitive tail_sw1;
    AddLaygoPrimitive invn_outn; AddLaygoPrimitive ndum2;
    AddLaygoPrimitive ndum3;
    AddLaygoPrimitive ndum4; AddLaygoPrimitive ndum5;
    AddLaygoPrimitive inn; AddLaygoPrimitive tail_sw2;
    AddLaygoPrimitive inp; AddLaygoPrimitive ndum6;
    AddLaygoPrimitive ndum7;
    AddLaygoPrimitive ndum8; AddLaygoPrimitive tailn;
    AddLaygoPrimitive ndum9; AddLaygoPrimitive tailp;
    AddLaygoPrimitive ndum10;
    AddLaygoPrimitive pw_tap;
    SetLaygoSize tot_blk;
    FillSpace;
    DrawBoundaryCells;
    ConnectToTracks source_vss source_vss_tid None;
    ConnectToTracks drain_vss drain_vss_tid None;
    AddPin "VSS" source_vss source_vss_tid show_pins;
    AddPin "VSS" drain_vss drain_vss_tid show_pins;
    ConnectToTracks tail tail_tid None;
    ConnectToTracks tclk tclk_tid None;
    ConnectToTracks [pins inp "g"] in_tid None;
    ConnectToTracks [pins inn "g"] in_tid None;
    ConnectToTracks [pins tail_sw2 "g"] tsw2 (Some 0);
    ConnectToTracks nmidp mid_tid None;
    ConnectToTracks nmidn mid_tid None;
    ConnectToTracks [pins rst_midp "d"] pmid_tid (Some 0);
    ConnectToTracks [pins rst_midn "d"] pmid_tid (Some 0);
    ConnectToTracks [pins invn_outp "d"] nout_tid None;
    ConnectToTracks [pins invn_outn "d"] nout_tid None;
    ConnectToTracks poutp pout_tid None;
    ConnectToTracks poutn pout_tid None;
    ConnectToTracks pclk pclk_tid None;
    ConnectToTracks nclk nclk_tid (Some 0);
    ConnectToTracks invgp invg_tid None;
    ConnectToTracks invgn invg_tid None;
    ConnectToTracks source_vdd source_vdd_tid None;
    ConnectToTracks drain_vdd drain_vdd_tid None;
    AddPin "VDD" source_vdd source_vdd_tid show_pins;
    AddPin "VDD" drain_vdd drain_vdd_tid show_pins ].

End StrongArmLatch.

Module StackDriver.

Record params : Type := {
  threshold : pyval;
  draw_boundaries : pyval;
  num_blk : Z;
  num_dblk : Z;
  show_pins : pyval;
}.

Definition draw_layout (base : LaygoBase) (self : params)
    : result (list laygo_call) :=
  if negb (py_truthy (fg2d_s_short base)) then
    Raise (ValueError
             "This template current only works if source wires of fg2d are shorted.")
  else
  let threshold := threshold self in
  let draw_boundaries := draw_boundaries self in
  let num_blk := num_blk self in
  let num_dblk := num_dblk self in
  let row_list := ["ptap"; "nch"; "pch"; "ntap"] in
  let orient_list := ["R0"; "R0"; "R0"; "MX"] in
  let thres_list := replicate 4 threshold in
  let num_g_tracks := [0; 1; 1; 0] in
  let num_gb_tracks := [0; 1; 1; 0] in
  let num_ds_tracks := [2; 1; 1; 2] in
  let options : pydict :=
    {[ "dual_gate" := PBool true; "ds_low_res" := PBool true ]} in
  let row_kwargs : list pydict := [∅; options; options; ∅] in
  let end_mode := if py_truthy draw_boundaries then 15 else 0 in
  (* determine total number of blocks *)
  let tot_blk := 2 * num_dblk + num_blk in
  let nx := (tot_blk - 2) `div` 2 in
  let prim id blk col row nx spx end_mode :=
    AddLaygoPrimitive (add_laygo_primitive id blk (col, row) nx spx None end_mode) in
  Ok [ SetRowTypes row_list orient_list thres_list draw_boundaries end_mode
         num_g_tracks num_gb_tracks num_ds_tracks 0 (Some row_kwargs);
       (* nwell tap *)
       prim 0%nat "sub" 0 3 (Some tot_blk) (Some 1) None;
       (* pmos row *)
       prim 1%nat "dual_stack2sl" 0 2 None None (Some 1);
       prim 2%nat "dual_stack2sr" 1 2 (Some nx) (Some 2) None;
       prim 3%nat "dual_stack2sl" 2 2 (Some nx) (Some 2) None;
       prim 4%nat "dual_stack2sr" (tot_blk - 1) 2 None None (Some 2);
       (* nmos row *)
       prim 5%nat "dual_stack2sr" 0 1 None None (Some 1);
       prim 6%nat "dual_stack2sl" 1 1 (Some nx) (Some 2) None;
       prim 7%nat "dual_stack2sr" 2 1 (Some nx) (Some 2) None;
       prim 8%nat "dual_stack2sl" (tot_blk - 1) 1 None None (Some 2);
       (* pwell tap *)
       prim 9%nat "sub" 0 0 (Some tot_blk) (Some 1) None;
       SetLaygoSize tot_blk;
       FillSpace;
       DrawBoundaryCells ].

End StackDriver.

(** *** Reading a sequence of LaygoBase calls *)

(** The instances placed, in program order. *)
Definition placed (calls : list laygo_call) : list laygo_inst :=
  omap (λ c, match c with AddLaygoPrimitive i => Some i | _ => None end) calls.

Definition inst_row (i : laygo_inst) : Z := snd (lp_loc (inst_prim i)).
Definition inst_col (i : laygo_inst) : Z := fst (lp_loc (inst_prim i)).

(** The instances placed in row [row], in program order. *)
Definition placed_in_row (row : Z) (calls : list laygo_call) : list laygo_inst :=
  List.filter (λ i, inst_row i =? row) (placed calls).

(** The number of primitives a call of [add_laygo_primitive] asks for: [nx],
    or one when the call gives no [nx]. *)
Definition num_prims (i : laygo_inst) : Z := default 1 (lp_nx (inst_prim i)).

(** [tiles start insts stop]: each instance is placed at the column where the
    one before it ends, the first at [start], and the last ends at [stop]. *)
Fixpoint tiles (start : Z) (insts : list laygo_inst) (stop : Z) : Prop :=
  match insts with
  | [] => start = stop
  | i :: insts => inst_col i = start ∧ tiles (start + num_prims i) insts stop
  end.

(** What distinguishes the kinds of primitive of a row from left to right. *)
Definition prim_shape (i : laygo_inst) : string * Z * option bool :=
  (lp_blk_type (inst_prim i), num_prims i, lp_split_s (inst_prim i)).

(** The column count given to [set_laygo_size], if it was called. *)
Definition laygo_size (calls : list laygo_call) : option Z :=
  head (omap (λ c, match c with SetLaygoSize n => Some n | _ => None end) calls).

(** The wires given to [connect_to_tracks], call after call. *)
Definition connected (calls : list laygo_call) : list (port_pins * laygo_track) :=
  flat_map (λ c, match c with
                 | ConnectToTracks wires tid _ => map (λ w, (w, tid)) wires
                 | _ => []
                 end) calls.

(** How many times port [port] of the instance of rank [id] is given to
    [connect_to_tracks]. *)
Definition num_connections (id : nat) (port : string)
    (calls : list laygo_call) : nat :=
  length (List.filter (λ '((i, p), _), Nat.eqb (inst_id i) id && String.eqb p port)
            (connected calls)).

(** The tracks that are named by layer and index rather than by row. *)
Definition explicit_tracks (calls : list laygo_call) : list (Z * Z) :=
  omap (λ c, match c with
             | ConnectToTracks _ (TrackID layer idx) _ => Some (layer, idx)
             | _ => None
             end) calls.

Definition demo_laygo : LaygoBase :=
  {| conn_layer := 3; fg2d_s_short := PBool true;
     get_track_index := λ row tr_type idx, row + idx |}.

Definition demo_strongarm : StrongArmLatch.params :=
  {| StrongArmLatch.threshold := PStr "ulvt";
     StrongArmLatch.draw_boundaries := PBool true;
     StrongArmLatch.num_nblk := 4; StrongArmLatch.num_pblk := 1;
     StrongArmLatch.num_dblk := 1;
     StrongArmLatch.show_pins := PBool true |}.

Definition demo_stack_driver (num_blk : Z) : StackDriver.params :=
  {| StackDriver.threshold := PStr "ulvt";
     StackDriver.draw_boundaries := PBool true;
     StackDriver.num_blk := num_blk; StackDriver.num_dblk := 1;
     StackDriver.show_pins := PBool true |}.

(** The nets given to [add_pin], each with the wires of its track. *)
Definition pins_of (calls : list laygo_call) : list (string * list port_pins) :=
  omap (λ c, match c with
             | AddPin net wires _ _ => Some (net, wires)
             | _ => None
             end) calls.

(** The left and the right flavour of a dual-stack primitive, exchanged. *)
Definition mirror_blk (blk : string) : string :=
  if String.eqb blk "dual_stack2sl" then "dual_stack2sr"
  else if String.eqb blk "dual_stack2sr" then "dual_stack2sl"
  else blk.

(** The primitive [p] with its flavour exchanged, at the same column of row
    [row]. *)
Definition mirror_prim (row : Z) (p : laygo_prim) : laygo_prim :=
  {| lp_blk_type := mirror_blk (lp_blk_type p);
     lp_loc := (fst (lp_loc p), row);
     lp_nx := lp_nx p; lp_spx := lp_spx p; lp_split_s := lp_split_s p;
     lp_end_mode := lp_end_mode p |}.

(** The number of primitives the calls ask for in row [row]. *)
Definition prims_in_row (row : Z) (calls : list laygo_call) : Z :=
  foldr Z.add 0 (map num_prims (placed_in_row row calls)).

(** ** Reading the dictionaries of a technology *)

(** The first of [keys], in the order the code subscripts them, that a
    dictionary of [Any] lacks. *)
Definition first_missing (d : pydict) (keys : list string) : option string :=
  List.find (λ key, bool_decide (d !! key = None)) keys.

(** The entries [AnalogMOSBase._draw_layout_helper] reads from the
    dictionary of [get_mos_info], in the order it reads them. *)
Definition mos_info_keys : list string :=
  ["layout_info"; "ext_top_info"; "ext_bot_info"; "sd_yc"; "g_conn_y"; "d_conn_y"].

(** The keyword arguments that the two [_draw_layout_helper]s name. *)
Definition mos_helper_args : list string :=
  ["lch"; "w"; "mos_type"; "threshold"].

Definition ext_helper_args : list string :=
  ["lch"; "w"; "bot_mtype"; "top_mtype"; "bot_thres"; "top_thres";
   "top_ext_info"; "bot_ext_info"].

(** A Python number: what [lch / layout_unit] accepts on its left. *)
Definition is_number (v : pyval) : bool :=
  match v with
  | PBool _ | PInt _ | PFloat _ => true
  | _ => false
  end.

(** One step of the result monad at a time, the same on both sides. *)
Ltac step_binds :=
  repeat match goal with
    | |- context [@mbind result _ _ _ _ ?m] =>
        destruct m; simpl; try reflexivity
    end.

(** Runs a chain of binds by cases on its innermost first step. *)
Ltac run_key :=
  repeat match goal with
    | |- context [@mbind result _ _ _ _ ?m] =>
        lazymatch m with
        | context [@mbind] => fail
        | _ => destruct m; simpl; eauto
        end
    end.

(** * Properties *)

(** ** The result monad and dictionary access *)

Lemma getitem_Some {V} (d : gmap string V) key v :
  d !! key = Some v → getitem d key = Ok v.
Proof. intros H. unfold getitem. by rewrite H. Qed.

Lemma getitem_None {V} (d : gmap string V) key :
  d !! key = None → getitem d key = Raise (KeyError key).
Proof. intros H. unfold getitem. by rewrite H. Qed.

Lemma getitem_Ok_inv {V} (d : gmap string V) key v :
  getitem d key = Ok v → d !! key = Some v.
Proof. unfold getitem. destruct (d !! key); congruence. Qed.

Lemma kwarg_Some (params : pydict) name v :
  params !! name = Some v → kwarg params name = Ok v.
Proof. intros H. unfold kwarg. by rewrite H. Qed.

Lemma kwarg_Ok_inv (params : pydict) name v :
  kwarg params name = Ok v → params !! name = Some v.
Proof. unfold kwarg. destruct (params !! name); congruence. Qed.

Lemma bind_Ok_inv {A B} (m : result A) (f : A → result B) b :
  m ≫= f = Ok b → ∃ a, m = Ok a ∧ f a = Ok b.
Proof. destruct m as [a|e]; [eauto | discriminate]. Qed.

(** ** The valid extension widths *)

Lemma ext_width_valid_elem widths w :
  w ∈ widths → ext_width_valid widths w = true.
Proof.
  intros Hin. unfold ext_width_valid.
  by rewrite bool_decide_eq_true_2.
Qed.

Lemma ext_width_valid_tail widths top w :
  last widths = Some top → top ≤ w → ext_width_valid widths w = true.
Proof.
  intros Hlast Hle. unfold ext_width_valid. rewrite Hlast.
  apply orb_true_iff. right. by apply Z.leb_le.
Qed.

Lemma ext_width_valid_gap widths top w :
  last widths = Some top → w < top → w ∉ widths →
  ext_width_valid widths w = false.
Proof.
  intros Hlast Hlt Hnotin. unfold ext_width_valid. rewrite Hlast.
  rewrite bool_decide_eq_false_2 by done.
  simpl. by apply Z.leb_gt.
Qed.

Lemma ext_width_valid_spec widths top w :
  last widths = Some top →
  ext_width_valid widths w = true ↔ w ∈ widths ∨ top ≤ w.
Proof.
  intros Hlast. unfold ext_width_valid. rewrite Hlast.
  rewrite orb_true_iff, bool_decide_eq_true, Z.leb_le. reflexivity.
Qed.

(** The example of the docstring: with [[0, 2, 5]] the widths
    0, 2, 5, 6, 7 are valid and 1, 3, 4 are not. *)
Example ext_width_valid_docstring :
  map (ext_width_valid [0; 2; 5]) [0; 1; 2; 3; 4; 5; 6; 7]
  = [true; false; true; false; false; true; true; true].
Proof. reflexivity. Qed.

(** C1: for every channel length and pair of extension interfaces,
    [get_valid_extension_widths] returns a list of integers that is strictly
    increasing and starts at a width >= 0, and the set of widths the list
    stands for is open-ended: every width >= the last element is valid, and
    a width below the last element that is not in the list is not valid. *)
Theorem get_valid_extension_widths_open_ended
    (lch_unit : Z) (top_ext_info bot_ext_info : pyval) :
  ∃ widths first top,
    get_valid_extension_widths MOSTech_abc lch_unit top_ext_info bot_ext_info
      = Ok widths
    ∧ strictly_increasing widths
    ∧ head widths = Some first ∧ 0 ≤ first
    ∧ last widths = Some top
    ∧ (∀ h, top ≤ h → ext_width_valid widths h = true)
    ∧ (∀ h, h < top → h ∉ widths → ext_width_valid widths h = false).
Proof.
  exists [0], 0, 0. simpl.
  split; [reflexivity|].
  split; [repeat constructor|].
  split; [reflexivity|].
  split; [lia|].
  split; [reflexivity|].
  split.
  - intros h Hh. by apply (ext_width_valid_tail [0] 0).
  - intros h Hh Hnotin. by apply (ext_width_valid_gap [0] 0).
Qed.

(** ** Track information and technology constants *)

(** C3: for every channel length, [get_dum_conn_track_info] and
    [get_mos_conn_track_info] return the pair (space, width) with
    space = sd_pitch * num_sd_per_track - conn_width and width = conn_width,
    the constants read from [get_mos_tech_constants(lch_unit)]: [dum_conn_w]
    for the dummy tracks, [mos_conn_w] for the transistor tracks. *)
Theorem conn_track_info_formula (cls : MOSTech) (lch_unit : Z)
    (mos_constants : gmap string Z) (sd_pitch num_sd_per_track dum_conn_w mos_conn_w : Z) :
  get_mos_tech_constants cls lch_unit = Ok mos_constants →
  mos_constants !! "sd_pitch" = Some sd_pitch →
  mos_constants !! "num_sd_per_track" = Some num_sd_per_track →
  mos_constants !! "dum_conn_w" = Some dum_conn_w →
  mos_constants !! "mos_conn_w" = Some mos_conn_w →
  get_dum_conn_track_info cls lch_unit
    = Ok (sd_pitch * num_sd_per_track - dum_conn_w, dum_conn_w)
  ∧ get_mos_conn_track_info cls lch_unit
    = Ok (sd_pitch * num_sd_per_track - mos_conn_w, mos_conn_w).
Proof.
  intros Hc Hsd Hn Hdum Hmos.
  unfold get_dum_conn_track_info, get_mos_conn_track_info.
  rewrite Hc. simpl.
  rewrite (getitem_Some _ _ _ Hsd), (getitem_Some _ _ _ Hn),
    (getitem_Some _ _ _ Hdum), (getitem_Some _ _ _ Hmos).
  split; reflexivity.
Qed.

Lemma conn_track_info_formula_witness :
  get_dum_conn_track_info DemoTech 16 = Ok (50, 40)
  ∧ get_mos_conn_track_info DemoTech 16 = Ok (58, 32).
Proof.
  apply (conn_track_info_formula DemoTech 16
           {[ "sd_pitch" := 90; "mos_conn_w" := 32; "dum_conn_w" := 40;
              "num_sd_per_track" := 1 ]} 90 1 40 32);
    reflexivity.
Defined.

(** C4: the X coordinate [get_left_sd_xc] returns is the ['edge_width'] entry
    of the dictionary [get_edge_info] returns for the same arguments. *)
Theorem get_left_sd_xc_is_edge_width (cls : MOSTech) (grid : RoutingGrid)
    (lch_unit guard_ring_nf top_layer : Z) (is_end : bool) (edge_info : pydict) :
  get_edge_info cls grid lch_unit guard_ring_nf top_layer is_end = Ok edge_info →
  get_left_sd_xc cls grid lch_unit guard_ring_nf top_layer is_end
    = getitem edge_info "edge_width".
Proof.
  intros Hinfo. unfold get_left_sd_xc. by rewrite Hinfo.
Qed.

Lemma get_left_sd_xc_is_edge_width_witness :
  get_left_sd_xc DemoTech demo_grid 16 0 5 true = Ok (PInt 180).
Proof.
  rewrite (get_left_sd_xc_is_edge_width DemoTech demo_grid 16 0 5 true
             {[ "edge_width" := PInt 180 ]});
    reflexivity.
Defined.

(** An exception of [get_edge_info] is the exception of [get_left_sd_xc]. *)
Lemma get_left_sd_xc_raises (cls : MOSTech) (grid : RoutingGrid)
    (lch_unit guard_ring_nf top_layer : Z) (is_end : bool) (e : pyexn) :
  get_edge_info cls grid lch_unit guard_ring_nf top_layer is_end = Raise e →
  get_left_sd_xc cls grid lch_unit guard_ring_nf top_layer is_end = Raise e.
Proof.
  intros Hinfo. unfold get_left_sd_xc. by rewrite Hinfo.
Qed.

(** C5 (as the code has it): a constant that the dictionary of
    [get_mos_tech_constants] lacks is never replaced by a default: the
    subscript raises [KeyError] with the missing name, and so does each
    helper of [MOSTech] that reads the dictionary, for the first name it
    reads and does not find. *)
Theorem absent_constant_raises_KeyError (cls : MOSTech) (lch_unit : Z)
    (mos_constants : gmap string Z) :
  get_mos_tech_constants cls lch_unit = Ok mos_constants →
  (∀ name, mos_constants !! name = None →
     getitem mos_constants name = Raise (KeyError name))
  ∧ (∀ key, first_absent mos_constants ["sd_pitch"] = Some key →
       get_sd_pitch cls lch_unit = Raise (KeyError key))
  ∧ (∀ key, first_absent mos_constants ["num_sd_per_track"] = Some key →
       get_num_fingers_per_sd cls lch_unit = Raise (KeyError key))
  ∧ (∀ key, first_absent mos_constants
              ["sd_pitch"; "dum_conn_w"; "num_sd_per_track"] = Some key →
       get_dum_conn_track_info cls lch_unit = Raise (KeyError key))
  ∧ (∀ key, first_absent mos_constants
              ["sd_pitch"; "mos_conn_w"; "num_sd_per_track"] = Some key →
       get_mos_conn_track_info cls lch_unit = Raise (KeyError key)).
Proof.
  intros Hc.
  unfold get_sd_pitch, get_num_fingers_per_sd, get_dum_conn_track_info,
    get_mos_conn_track_info.
  rewrite Hc. simpl.
  split; [intros name; apply getitem_None|].
  repeat split; intros key Hkey; unfold first_absent in Hkey; simpl in Hkey;
    first_absent_cases Hkey;
    injection Hkey as <-; unfold getitem;
    repeat match goal with E : _ !! _ = _ |- _ => rewrite E; clear E end;
    reflexivity.
Qed.

Lemma absent_constant_raises_KeyError_witness :
  get_sd_pitch MOSTech_abc 16 = Raise (KeyError "sd_pitch")
  ∧ get_num_fingers_per_sd MOSTech_abc 16 = Raise (KeyError "num_sd_per_track")
  ∧ get_dum_conn_track_info MOSTech_abc 16 = Raise (KeyError "sd_pitch")
  ∧ get_mos_conn_track_info MOSTech_abc 16 = Raise (KeyError "sd_pitch").
Proof.
  destruct (absent_constant_raises_KeyError MOSTech_abc 16 ∅ eq_refl)
    as (_ & Hsd & Hn & Hdum & Hmos).
  split; [|split; [|split]].
  - apply Hsd. reflexivity.
  - apply Hn. reflexivity.
  - apply Hdum. reflexivity.
  - apply Hmos. reflexivity.
Defined.

(** C5 as the specification states it does not hold.  The constants
    dictionary of [MOSTech] is empty, so every name is absent from it; yet
    [get_tech_constant] of [MOSTech] returns 0 for sd_pitch as for any other
    name; and where a lookup does fail, in the helpers that read the
    dictionary, the exception is [KeyError], not an
    UnknownTechnologyParameter. *)
Lemma get_tech_constant_defaults_silently :
  get_mos_tech_constants MOSTech_abc 16 = Ok ∅
  ∧ get_tech_constant MOSTech_abc "sd_pitch" = Ok (PInt 0)
  ∧ get_tech_constant MOSTech_abc "no_such_constant" = Ok (PInt 0)
  ∧ get_sd_pitch MOSTech_abc 16 = Raise (KeyError "sd_pitch")
  ∧ get_sd_pitch MOSTech_abc 16 ≠ Raise (Raised "UnknownTechnologyParameter").
Proof.
  split; [reflexivity|]. split; [reflexivity|]. split; [reflexivity|].
  split; [reflexivity|]. discriminate.
Qed.

(** ** The templates of mos.py *)

Example lch_to_unit_demo : lch_to_unit demo_grid (PFloat 16e-9) = Ok 16.
Proof. vm_compute. reflexivity. Qed.

(** C6: [compute_unique_key] is a function of the template parameters: two
    [AnalogMOSBase] templates, or two [AnalogMOSExt] templates, with equal
    parameters have the same key, whatever else differs between them (the
    grid, the technology class, what has been drawn). *)
Theorem compute_unique_key_deterministic
    (py_str : pyval → string) (float_to_si_string : pyval → result string)
    (to_immutable_id : pyval → result pyval)
    (a b : AnalogMOSBase.t) (c d : AnalogMOSExt.t) :
  AnalogMOSBase.params a = AnalogMOSBase.params b →
  AnalogMOSExt.params c = AnalogMOSExt.params d →
  AnalogMOSBase.compute_unique_key py_str float_to_si_string a
    = AnalogMOSBase.compute_unique_key py_str float_to_si_string b
  ∧ AnalogMOSExt.compute_unique_key py_str float_to_si_string to_immutable_id c
    = AnalogMOSExt.compute_unique_key py_str float_to_si_string to_immutable_id d.
Proof.
  intros Hab Hcd.
  unfold AnalogMOSBase.compute_unique_key, AnalogMOSBase.get_layout_basename,
    AnalogMOSExt.compute_unique_key, AnalogMOSExt.get_layout_basename.
  rewrite Hab, Hcd. split; reflexivity.
Qed.

(** A fresh template on [MOSTech] and one that has drawn on the demo
    technology, on another grid, have the same key. *)
Lemma compute_unique_key_deterministic_witness :
  AnalogMOSBase.compute_unique_key demo_str demo_si_string
      (new_mos demo_grid MOSTech_abc 3 demo_mos_params)
    = AnalogMOSBase.compute_unique_key demo_str demo_si_string drawn_mos
  ∧ AnalogMOSExt.compute_unique_key demo_str demo_si_string demo_immutable_id
      (new_ext demo_grid MOSTech_abc 3 PNone (demo_ext_params 3))
    = AnalogMOSExt.compute_unique_key demo_str demo_si_string
        demo_immutable_id drawn_ext.
Proof.
  apply (compute_unique_key_deterministic demo_str demo_si_string
           demo_immutable_id
           (new_mos demo_grid MOSTech_abc 3 demo_mos_params) drawn_mos
           (new_ext demo_grid MOSTech_abc 3 PNone (demo_ext_params 3))
           drawn_ext);
    reflexivity.
Defined.

(** The keys of a transistor and of an extension between an nch row and a
    pch row, with the channel length given as the integer 16. *)
Example compute_unique_key_demo :
  AnalogMOSBase.compute_unique_key demo_str demo_si_string
    (new_mos demo_grid DemoTech 3 (<["lch" := PInt 16]> demo_mos_params))
  = Ok "nch_l16_w4_lvt"
  ∧ AnalogMOSExt.compute_unique_key demo_str demo_si_string demo_immutable_id
      (new_ext demo_grid DemoTech 3 (PInt 2)
         (<["lch" := PInt 16]> (demo_ext_params 3)))
    = Ok (PTuple [PStr "ext_bnch_tpch_l16_w3_blvt_thvt";
                  PTuple [PInt 1; PInt 4]; PTuple [PInt 0; PInt 4]]).
Proof. split; vm_compute; reflexivity. Qed.

Section AnalogMOSBase_properties.

Import AnalogMOSBase.

Lemma AnalogMOSBase_init_new grid tech_cls params layer :
  get_mos_conn_layer tech_cls = Ok layer →
  init grid tech_cls params = Ok (new_mos grid tech_cls layer params).
Proof. intros H. unfold init. by rewrite H. Qed.

(** On [MOSTech] itself [get_mos_info] returns an empty dictionary, and
    [draw_layout] stops at its first subscript. *)
Example AnalogMOSBase_draw_layout_abc :
  draw_layout (new_mos demo_grid MOSTech_abc 3 demo_mos_params)
  = Raise (KeyError "layout_info").
Proof. vm_compute. reflexivity. Qed.

(** An entry named fg among the parameters is not read by [draw_layout]. *)
Lemma AnalogMOSBase_draw_layout_ignores_fg (self : t) (v : pyval) :
  block <$> draw_layout (with_params self (<["fg" := v]> (params self)))
  = block <$> draw_layout self.
Proof.
  unfold draw_layout, _draw_layout_helper, with_params, kwarg. simpl.
  rewrite !lookup_insert_ne by done.
  destruct (params self !! "lch"); simpl; [|reflexivity].
  destruct (params self !! "w"); simpl; [|reflexivity].
  destruct (params self !! "mos_type"); simpl; [|reflexivity].
  destruct (params self !! "threshold"); simpl; [|reflexivity].
  step_binds.
Qed.

(** What a successful [draw_layout] has stored comes from [get_mos_info]
    called with the finger count of [get_analog_unit_fg]. *)
Lemma AnalogMOSBase_draw_layout_unit_fg (self self' : t) :
  draw_layout self = Ok self' →
  ∃ lch w mos_type threshold lch_unit fg mos_info,
    params self !! "lch" = Some lch
    ∧ params self !! "w" = Some w
    ∧ params self !! "mos_type" = Some mos_type
    ∧ params self !! "threshold" = Some threshold
    ∧ lch_to_unit (grid self) lch = Ok lch_unit
    ∧ get_analog_unit_fg (_tech_cls self) = Ok fg
    ∧ get_mos_info (_tech_cls self) lch_unit w mos_type threshold fg
        = Ok mos_info
    ∧ mos_info !! "layout_info" = Some (_layout_info self')
    ∧ mos_info !! "ext_top_info" = Some (_ext_top_info self')
    ∧ mos_info !! "ext_bot_info" = Some (_ext_bot_info self')
    ∧ mos_info !! "sd_yc" = Some (_sd_yc self')
    ∧ mos_info !! "g_conn_y" = Some (_g_conn_y self')
    ∧ mos_info !! "d_conn_y" = Some (_d_conn_y self')
    ∧ draw_mos (_tech_cls self) (drawn self) (_layout_info self')
        = Ok (drawn self').
Proof.
  unfold draw_layout, _draw_layout_helper. intros H.
  apply bind_Ok_inv in H as (lch & Hlch & H).
  apply bind_Ok_inv in H as (w & Hw & H).
  apply bind_Ok_inv in H as (mos_type & Hmt & H).
  apply bind_Ok_inv in H as (threshold & Hth & H).
  apply bind_Ok_inv in H as (lch_unit & Hunit & H).
  apply bind_Ok_inv in H as (fg & Hfg & H).
  apply bind_Ok_inv in H as (mos_info & Hinfo & H).
  apply bind_Ok_inv in H as (layout_info & Hli & H).
  apply bind_Ok_inv in H as (ext_top & Htop & H).
  apply bind_Ok_inv in H as (ext_bot & Hbot & H).
  apply bind_Ok_inv in H as (sd_yc & Hsd & H).
  apply bind_Ok_inv in H as (g_conn_y & Hg & H).
  apply bind_Ok_inv in H as (d_conn_y & Hd & H).
  apply bind_Ok_inv in H as (drawn' & Hdrawn & H).
  injection H as <-. simpl.
  exists lch, w, mos_type, threshold, lch_unit, fg, mos_info.
  repeat split; auto using kwarg_Ok_inv, getitem_Ok_inv.
Qed.

Lemma AnalogMOSBase_get_params_info_dom :
  dom get_params_info
    = ({[ "lch"; "w"; "mos_type"; "threshold" ]} : gset string).
Proof. reflexivity. Qed.

(** C10: [AnalogMOSBase] has no finger-count parameter: its parameters are
    exactly lch, w, mos_type and threshold; an entry named fg among the
    parameters changes nothing of what [draw_layout] does; and whenever
    [draw_layout] succeeds, the block it has built is the one [get_mos_info]
    gives for the finger count [get_analog_unit_fg()] of the technology. *)
Theorem AnalogMOSBase_finger_count_is_unit_fg :
  dom get_params_info
    = ({[ "lch"; "w"; "mos_type"; "threshold" ]} : gset string)
  ∧ ("fg" ∉ dom get_params_info)
  ∧ (∀ (self : t) (v : pyval),
       block <$> draw_layout (with_params self (<["fg" := v]> (params self)))
       = block <$> draw_layout self)
  ∧ (∀ self self' : t,
       draw_layout self = Ok self' →
       ∃ lch w mos_type threshold lch_unit fg mos_info,
         params self !! "lch" = Some lch
         ∧ params self !! "w" = Some w
         ∧ params self !! "mos_type" = Some mos_type
         ∧ params self !! "threshold" = Some threshold
         ∧ lch_to_unit (grid self) lch = Ok lch_unit
         ∧ get_analog_unit_fg (_tech_cls self) = Ok fg
         ∧ get_mos_info (_tech_cls self) lch_unit w mos_type threshold fg
             = Ok mos_info
         ∧ mos_info !! "layout_info" = Some (_layout_info self')).
Proof.
  split; [|split; [|split]].
  - apply AnalogMOSBase_get_params_info_dom.
  - rewrite AnalogMOSBase_get_params_info_dom.
    rewrite !not_elem_of_union, !not_elem_of_singleton.
    repeat split; discriminate.
  - apply AnalogMOSBase_draw_layout_ignores_fg.
  - intros self self' H.
    destruct (AnalogMOSBase_draw_layout_unit_fg self self' H)
      as (lch & w & mt & th & u & fg & info
          & H1 & H2 & H3 & H4 & H5 & H6 & H7 & H8 & _).
    exists lch, w, mt, th, u, fg, info. auto 10.
Qed.

(** On the demo technology, whose row unit has two fingers, the block drawn
    records [fg = 2], also when the parameters carry an [fg] of 8. *)
Lemma AnalogMOSBase_finger_count_is_unit_fg_witness :
  ∃ self',
    draw_layout (new_mos demo_grid DemoTech 3
                   (<["fg" := PInt 8]> demo_mos_params)) = Ok self'
    ∧ get_analog_unit_fg DemoTech = Ok (PInt 2)
    ∧ _layout_info self'
      = PDict {[ "lch_unit" := PInt 16; "w" := PInt 4;
                 "mos_type" := PStr "nch"; "fg" := PInt 2 ]}.
Proof.
  destruct AnalogMOSBase_finger_count_is_unit_fg as (_ & _ & _ & Hfg).
  destruct (draw_layout (new_mos demo_grid DemoTech 3
                           (<["fg" := PInt 8]> demo_mos_params)))
    as [self'|e] eqn:Hdraw.
  - exists self'. split; [reflexivity|]. split; [reflexivity|].
    destruct (Hfg _ _ Hdraw) as (lch & w & mt & th & u & fg & info & _).
    vm_compute in Hdraw. injection Hdraw as <-. reflexivity.
  - vm_compute in Hdraw. discriminate Hdraw.
Defined.

End AnalogMOSBase_properties.

Section AnalogMOSExt_properties.

Import AnalogMOSExt.

Lemma AnalogMOSExt_init_new grid tech_cls params is_laygo layer fg :
  params !! "is_laygo" = Some is_laygo →
  (if py_truthy is_laygo then get_dig_conn_layer tech_cls
   else get_mos_conn_layer tech_cls) = Ok layer →
  get_analog_unit_fg tech_cls = Ok fg →
  init grid tech_cls params = Ok (new_ext grid tech_cls layer fg params).
Proof.
  intros Hl Hlayer Hfg. unfold init.
  rewrite (getitem_Some _ _ _ Hl). simpl.
  destruct (py_truthy is_laygo); rewrite Hlayer; simpl; by rewrite Hfg.
Qed.

(** [draw_layout] of an extension does not look at
    [get_valid_extension_widths]: overriding that method changes nothing. *)
Lemma AnalogMOSExt_draw_layout_ignores_valid_widths (self : t)
    (f : Z → pyval → pyval → result (list Z)) :
  block <$> draw_layout
              (with_tech_cls self
                 (override_valid_extension_widths (_tech_cls self) f))
  = block <$> draw_layout self.
Proof.
  unfold draw_layout, _draw_layout_helper, with_tech_cls. simpl.
  step_binds.
Qed.

(** With the eight arguments present and a channel length that converts,
    [draw_layout] of an extension does what [get_ext_info] and [draw_mos] of
    the technology do, for every [w]. *)
Lemma AnalogMOSExt_draw_layout_outcome (self : t)
    (lch w bot_mtype top_mtype bot_thres top_thres : pyval)
    (top_ext_info bot_ext_info : pyval) (lch_unit : Z) :
  params self !! "lch" = Some lch →
  params self !! "w" = Some w →
  params self !! "bot_mtype" = Some bot_mtype →
  params self !! "top_mtype" = Some top_mtype →
  params self !! "bot_thres" = Some bot_thres →
  params self !! "top_thres" = Some top_thres →
  params self !! "top_ext_info" = Some top_ext_info →
  params self !! "bot_ext_info" = Some bot_ext_info →
  lch_to_unit (grid self) lch = Ok lch_unit →
  block <$> draw_layout self
  = (ext_info ← get_ext_info (_tech_cls self) lch_unit w bot_mtype top_mtype
                   bot_thres top_thres (_fg self) top_ext_info bot_ext_info;
     drawn' ← draw_mos (_tech_cls self) (drawn self) (PDict ext_info);
     Ok (PDict ext_info, drawn')).
Proof.
  intros H1 H2 H3 H4 H5 H6 H7 H8 Hunit.
  unfold draw_layout, _draw_layout_helper.
  rewrite (kwarg_Some _ _ _ H1), (kwarg_Some _ _ _ H2), (kwarg_Some _ _ _ H3),
    (kwarg_Some _ _ _ H4), (kwarg_Some _ _ _ H5), (kwarg_Some _ _ _ H6),
    (kwarg_Some _ _ _ H7), (kwarg_Some _ _ _ H8).
  simpl. rewrite Hunit. simpl.
  step_binds.
Qed.

(** C2 (as the code has it): drawing an extension checks no height.
    [AnalogMOSExt.draw_layout] never consults [get_valid_extension_widths];
    given its eight arguments and a channel length that converts, it does
    what [get_ext_info] and [draw_mos] of the technology do with the [w] it
    was given, and raises what they raise; and with the bodies [MOSTech]
    itself has for the two methods it succeeds for every [w], in the valid
    set or not. *)
Theorem AnalogMOSExt_draw_layout_checks_no_height (self : t)
    (lch w bot_mtype top_mtype bot_thres top_thres : pyval)
    (top_ext_info bot_ext_info : pyval) (lch_unit : Z) :
  params self !! "lch" = Some lch →
  params self !! "w" = Some w →
  params self !! "bot_mtype" = Some bot_mtype →
  params self !! "top_mtype" = Some top_mtype →
  params self !! "bot_thres" = Some bot_thres →
  params self !! "top_thres" = Some top_thres →
  params self !! "top_ext_info" = Some top_ext_info →
  params self !! "bot_ext_info" = Some bot_ext_info →
  lch_to_unit (grid self) lch = Ok lch_unit →
  (∀ f, block <$> draw_layout
                    (with_tech_cls self
                       (override_valid_extension_widths (_tech_cls self) f))
        = block <$> draw_layout self)
  ∧ block <$> draw_layout self
    = (ext_info ← get_ext_info (_tech_cls self) lch_unit w bot_mtype top_mtype
                     bot_thres top_thres (_fg self) top_ext_info bot_ext_info;
       drawn' ← draw_mos (_tech_cls self) (drawn self) (PDict ext_info);
       Ok (PDict ext_info, drawn'))
  ∧ (get_ext_info (_tech_cls self) = get_ext_info MOSTech_abc →
     draw_mos (_tech_cls self) = draw_mos MOSTech_abc →
     block <$> draw_layout self = Ok (PDict ∅, drawn self)).
Proof.
  intros H1 H2 H3 H4 H5 H6 H7 H8 Hunit.
  split; [|split].
  - apply AnalogMOSExt_draw_layout_ignores_valid_widths.
  - by eapply AnalogMOSExt_draw_layout_outcome.
  - intros Hext Hdraw.
    rewrite (AnalogMOSExt_draw_layout_outcome self _ _ _ _ _ _ _ _ _
               H1 H2 H3 H4 H5 H6 H7 H8 Hunit).
    rewrite Hext, Hdraw. reflexivity.
Qed.

(** Width 3 on the technology with the valid widths [[0, 2, 5]]. *)
Lemma AnalogMOSExt_draw_layout_checks_no_height_witness :
  block <$> draw_layout
              (new_ext demo_grid DocWidthsTech 3 PNone (demo_ext_params 3))
  = Ok (PDict ∅, []).
Proof.
  apply (AnalogMOSExt_draw_layout_checks_no_height
           (new_ext demo_grid DocWidthsTech 3 PNone (demo_ext_params 3))
           (PFloat 16e-9) (PInt 3) (PStr "nch") (PStr "pch")
           (PStr "lvt") (PStr "hvt")
           (PTuple [PInt 1; PInt 4]) (PTuple [PInt 0; PInt 4]) 16);
    reflexivity.
Defined.

(** C2 as the specification states it does not hold.  On [MOSTech] itself
    the valid widths are [[0]]; width -1 is below the last element and not in
    the list, and the extension is drawn.  On the technology whose valid
    widths are the [[0, 2, 5]] of the docstring, width 3 is not valid, and
    the extension is drawn.  Neither call raises. *)
Lemma invalid_extension_width_is_drawn :
  let top := PTuple [PInt 1; PInt 4] in
  let bot := PTuple [PInt 0; PInt 4] in
  (get_valid_extension_widths MOSTech_abc 16 top bot = Ok [0]
   ∧ ext_width_valid [0] (-1) = false
   ∧ (init demo_grid MOSTech_abc (demo_ext_params (-1)) ≫= draw_layout)
     = Ok {| grid := demo_grid; params := demo_ext_params (-1);
             _tech_cls := MOSTech_abc; prim_top_layer := 3; _fg := PNone;
             _layout_info := PDict ∅; drawn := [] |})
  ∧ (get_valid_extension_widths DocWidthsTech 16 top bot = Ok [0; 2; 5]
     ∧ ext_width_valid [0; 2; 5] 3 = false
     ∧ (init demo_grid DocWidthsTech (demo_ext_params 3) ≫= draw_layout)
       = Ok {| grid := demo_grid; params := demo_ext_params 3;
               _tech_cls := DocWidthsTech; prim_top_layer := 3; _fg := PNone;
               _layout_info := PDict ∅; drawn := [] |}).
Proof.
  intros top bot.
  split; (split; [reflexivity|]); (split; [reflexivity|]);
    vm_compute; reflexivity.
Qed.

End AnalogMOSExt_properties.

(** ** The characterization transistor and the row composer *)

Lemma ceil_mul_bounds (x p : Z) :
  0 < p → x ≤ - ((- x) / p) * p < x + p.
Proof.
  intros Hp.
  pose proof (Z.div_mod (- x) p ltac:(lia)) as Hdm.
  pose proof (Z.mod_pos_bound (- x) p Hp) as Hmod.
  nia.
Qed.

(** A resolved track lies in the range it was resolved against. *)
Lemma resolve_track_in_range (track_pitch : Z) (b : AnalogBase.BlockInfo)
    (req : track_request) (t : Z) :
  0 < track_pitch →
  AnalogBase.resolve_track track_pitch b req = Ok t →
  let '(bot, top) := match tr_type req with
                     | TrGate => AnalogBase.gate_track_y_range b
                     | TrDrainSource => AnalogBase.drain_track_y_range b
                     end in
  bot ≤ t * track_pitch ≤ top.
Proof.
  intros Hp. unfold AnalogBase.resolve_track.
  destruct (match tr_type req with
            | TrGate => AnalogBase.gate_track_y_range b
            | TrDrainSource => AnalogBase.drain_track_y_range b
            end) as [bot top].
  destruct (0 <=? tr_idx req) eqn:Hidx; simpl; [|discriminate].
  destruct (_ <=? top) eqn:Htop; [|discriminate].
  intros [= <-].
  apply Z.leb_le in Hidx, Htop.
  pose proof (ceil_mul_bounds bot track_pitch Hp).
  split; [nia | exact Htop].
Qed.

(** The calls of the scenario of the specification, in program order. *)
Example Transistor_draw_layout_demo :
  Transistor.draw_layout demo_transistor
  = [ DrawBase (PFloat 16e-9) 6 (PInt 6) (PInt 6)
        [PInt 4] [PStr "lvt"] [] [] 0 [2] [1] [] [];
      DrawMosConn "nch" 0 1 4 0 2 false;
      PinOnTrack "g" "g" {| tr_mos_type := "nch"; tr_row_idx := 0;
                            tr_type := TrGate; tr_idx := 1 |};
      PinOnTrack "d" "d" {| tr_mos_type := "nch"; tr_row_idx := 0;
                            tr_type := TrDrainSource; tr_idx := 0 |};
      PinOnTrack "s" "s" {| tr_mos_type := "nch"; tr_row_idx := 0;
                            tr_type := TrGate; tr_idx := 0 |};
      FillDummy;
      BodyPins "b" ].
Proof. reflexivity. Qed.

(** C7: in the characterization [Transistor] with [fg] device fingers and
    [fg_dum] dummies on each side, the finger count of the row handed to
    [draw_base] is [fg + 2 * fg_dum], so the row built from it is
    [(fg + 2 * fg_dum) * sd_pitch] wide; the gate pin goes on gate track
    [num_gate_tr - 1] and the drain pin on drain/source track
    [nd_tracks // 2] of the same row, and on a block whose gate and drain
    ranges do not overlap the two resolve to distinct tracks, one in each
    range. *)
Theorem Transistor_fingers_and_pin_tracks (self : Transistor.params)
    (sd_pitch track_pitch : Z) (blk : AnalogBase.BlockInfo) :
  0 < track_pitch →
  AnalogBase.BlockInfo_inv blk →
  let fg_tot := Transistor.fg self + 2 * Transistor.fg_dum self in
  let calls := Transistor.draw_layout self in
  let g_req := {| tr_mos_type := Transistor.mos_type self; tr_row_idx := 0;
                  tr_type := TrGate;
                  tr_idx := 2 + Transistor.num_track_sep self - 1 |} in
  let d_req := {| tr_mos_type := Transistor.mos_type self; tr_row_idx := 0;
                  tr_type := TrDrainSource;
                  tr_idx := Transistor.nd_tracks self / 2 |} in
  row_fingers calls = Some fg_tot
  ∧ (∀ n, row_fingers calls = Some n →
          AnalogBase.build_block_width sd_pitch n = fg_tot * sd_pitch)
  ∧ pin_track "g" calls = Some g_req
  ∧ pin_track "d" calls = Some d_req
  ∧ (∀ tg td,
       AnalogBase.resolve_track track_pitch blk g_req = Ok tg →
       AnalogBase.resolve_track track_pitch blk d_req = Ok td →
       tg ≠ td
       ∧ fst (AnalogBase.gate_track_y_range blk) ≤ tg * track_pitch
           ≤ snd (AnalogBase.gate_track_y_range blk)
       ∧ fst (AnalogBase.drain_track_y_range blk) ≤ td * track_pitch
           ≤ snd (AnalogBase.drain_track_y_range blk)).
Proof.
  intros Hp Hinv fg_tot calls g_req d_req.
  assert (Hrow : row_fingers calls = Some fg_tot).
  { subst calls. unfold Transistor.draw_layout.
    destruct (String.eqb (Transistor.mos_type self) "pch"); reflexivity. }
  split; [exact Hrow|].
  split.
  { intros n Hn. rewrite Hrow in Hn. injection Hn as <-. reflexivity. }
  split.
  { subst calls g_req. unfold Transistor.draw_layout.
    destruct (String.eqb (Transistor.mos_type self) "pch"); reflexivity. }
  split.
  { subst calls d_req. unfold Transistor.draw_layout.
    destruct (String.eqb (Transistor.mos_type self) "pch"); reflexivity. }
  intros tg td Hg Hd.
  pose proof (resolve_track_in_range _ _ _ _ Hp Hg) as Hgr.
  pose proof (resolve_track_in_range _ _ _ _ Hp Hd) as Hdr.
  subst g_req d_req. simpl in Hgr, Hdr.
  unfold AnalogBase.BlockInfo_inv in Hinv.
  destruct (AnalogBase.gate_track_y_range blk) as [g_bot g_top].
  destruct (AnalogBase.drain_track_y_range blk) as [d_bot d_top].
  simpl. split; [|split; assumption].
  intros ->. lia.
Qed.

(** The scenario of the specification: an nch row, 4 fingers, 1 dummy on
    each side, 2 gate tracks, 1 drain track, at sd_pitch 90: the row is
    6 * 90 wide, the gate pin is on track 1 and the drain pin on track 4. *)
Lemma Transistor_fingers_and_pin_tracks_witness :
  ∃ g_req d_req,
    row_fingers (Transistor.draw_layout demo_transistor) = Some 6
    ∧ AnalogBase.block_width demo_block = (4 + 2 * 1) * 90
    ∧ pin_track "g" (Transistor.draw_layout demo_transistor) = Some g_req
    ∧ pin_track "d" (Transistor.draw_layout demo_transistor) = Some d_req
    ∧ AnalogBase.resolve_track 30 demo_block g_req = Ok 1
    ∧ AnalogBase.resolve_track 30 demo_block d_req = Ok 4
    ∧ 1 ≠ 4.
Proof.
  assert (Hp : 0 < 30) by lia.
  assert (Hinv : AnalogBase.BlockInfo_inv demo_block)
    by (unfold AnalogBase.BlockInfo_inv; simpl; lia).
  destruct (Transistor_fingers_and_pin_tracks demo_transistor 90 30
              demo_block Hp Hinv)
    as (Hrow & Hwidth & Hg & Hd & Hne).
  eexists _, _.
  split; [exact Hrow|].
  split; [exact (Hwidth 6 Hrow)|].
  split; [exact Hg|].
  split; [exact Hd|].
  split; [reflexivity|].
  split; [reflexivity|].
  exact (proj1 (Hne 1 4 eq_refl eq_refl)).
Defined.

(** C9: a dummy connection track resolved for a technology whose
    [get_dum_conn_pitch()] is [pitch] is a multiple of [pitch]; it is the
    requested index rounded up to the nearest multiple, never down: the
    least multiple of [pitch] that is not below the request, and the request
    itself when that is a multiple already. *)
Theorem resolve_dum_track_rounds_up (cls : MOSTech) (pitch requested : Z) :
  get_dum_conn_pitch cls = Ok pitch →
  0 < pitch →
  ∃ t,
    AnalogBase.resolve_dum_track cls requested = Ok t
    ∧ (pitch | t)
    ∧ requested ≤ t < requested + pitch
    ∧ (∀ m, (pitch | m) → requested ≤ m → t ≤ m)
    ∧ ((pitch | requested) → t = requested).
Proof.
  intros Hpitch Hpos.
  exists (- ((- requested) / pitch) * pitch).
  unfold AnalogBase.resolve_dum_track. rewrite Hpitch. simpl.
  pose proof (ceil_mul_bounds requested pitch Hpos) as Hb.
  split; [reflexivity|].
  split; [by apply Z.divide_factor_r|].
  split; [exact Hb|].
  split.
  - intros m [k ->] Hle.
    apply Z.mul_le_mono_nonneg_r; [lia|].
    enough (- ((- requested) / pitch) < k + 1) by lia.
    apply (Z.mul_lt_mono_pos_r pitch); lia.
  - intros [k ->].
    rewrite <- Z.mul_opp_l, Z.div_mul by lia. lia.
Qed.

Lemma resolve_dum_track_rounds_up_witness :
  get_dum_conn_pitch DemoTech = Ok 2
  ∧ ∃ t,
      AnalogBase.resolve_dum_track DemoTech 3 = Ok t
      ∧ (2 | t)
      ∧ 3 ≤ t < 3 + 2
      ∧ (∀ m, (2 | m) → 3 ≤ m → t ≤ m)
      ∧ ((2 | 3) → t = 3).
Proof.
  split; [reflexivity|].
  apply (resolve_dum_track_rounds_up DemoTech 2 3); [reflexivity | lia].
Defined.

Example resolve_dum_track_demo :
  AnalogBase.resolve_dum_track DemoTech <$> [0; 1; 2; 3; 4; 5]
  = Ok <$> [0; 2; 2; 4; 4; 6].
Proof. reflexivity. Qed.

(** With the pitch 1 of [MOSTech] every track is a legal dummy track. *)
Lemma resolve_dum_track_abc (requested : Z) :
  AnalogBase.resolve_dum_track MOSTech_abc requested = Ok requested.
Proof.
  unfold AnalogBase.resolve_dum_track. simpl. f_equal.
  rewrite Z.div_1_r. lia.
Qed.

(** * Further properties of the code *)

(** ** The result monad, once more *)

Lemma result_bind_inv {A B} (m : result A) (f : A → result B) b :
  m ≫= f = Ok b → ∃ a, m = Ok a ∧ f a = Ok b.
Proof. destruct m as [a|e]; simpl; [eauto | discriminate]. Qed.

Lemma result_bind_raise_inv {A B} (m : result A) (f : A → result B) e :
  m ≫= f = Raise e → m = Raise e ∨ ∃ a, m = Ok a ∧ f a = Raise e.
Proof. destruct m as [a|e']; simpl; [eauto | intros [= ->]; by left]. Qed.

Lemma getitem_inv {V} (d : gmap string V) key v :
  getitem d key = Ok v → d !! key = Some v.
Proof. unfold getitem. destruct (d !! key); congruence. Qed.

Lemma getitem_present {V} (d : gmap string V) key v :
  d !! key = Some v → getitem d key = Ok v.
Proof. unfold getitem. by intros ->. Qed.

Lemma getitem_missing {V} (d : gmap string V) key :
  d !! key = None → getitem d key = Raise (KeyError key).
Proof. unfold getitem. by intros ->. Qed.

Lemma kwarg_present (params : pydict) name v :
  params !! name = Some v → kwarg params name = Ok v.
Proof. unfold kwarg. by intros ->. Qed.

Lemma kwarg_missing (params : pydict) name :
  params !! name = None →
  kwarg params name = Raise (TypeError "missing required positional argument").
Proof. unfold kwarg. by intros ->. Qed.

Lemma kwarg_inv (params : pydict) name v :
  kwarg params name = Ok v → params !! name = Some v.
Proof. unfold kwarg. destruct (params !! name); congruence. Qed.

(** ** core.py: the connection tracks *)

(** X1: the dummy connection tracks and the transistor connection tracks
    have the same pitch: whenever both track-info helpers return, space plus
    width is the same for the two layers, namely the source/drain pitch of
    [get_sd_pitch] times the junctions per track of
    [get_num_fingers_per_sd]. *)
Theorem conn_tracks_share_pitch (cls : MOSTech)
    (lch_unit dum_sp dum_w tr_sp tr_w : Z) :
  get_dum_conn_track_info cls lch_unit = Ok (dum_sp, dum_w) →
  get_mos_conn_track_info cls lch_unit = Ok (tr_sp, tr_w) →
  ∃ sd_pitch num_sd_per_track,
    get_sd_pitch cls lch_unit = Ok sd_pitch
    ∧ get_num_fingers_per_sd cls lch_unit = Ok num_sd_per_track
    ∧ dum_sp + dum_w = sd_pitch * num_sd_per_track
    ∧ tr_sp + tr_w = sd_pitch * num_sd_per_track.
Proof.
  unfold get_dum_conn_track_info, get_mos_conn_track_info, get_sd_pitch,
    get_num_fingers_per_sd.
  intros Hdum Hmos.
  apply result_bind_inv in Hdum as (consts & Hc & Hdum).
  rewrite Hc in Hmos |- *. simpl in Hmos |- *.
  apply result_bind_inv in Hdum as (sd & Hsd & Hdum).
  apply result_bind_inv in Hdum as (dw & Hdw & Hdum).
  apply result_bind_inv in Hdum as (n & Hn & Hdum).
  rewrite Hsd, Hn in Hmos |- *. simpl in Hmos.
  apply result_bind_inv in Hmos as (mw & Hmw & Hmos).
  simpl in Hmos.
  injection Hdum as <- <-. injection Hmos as <- <-.
  exists sd, n. repeat split; lia.
Qed.

Lemma conn_tracks_share_pitch_witness :
  ∃ sd_pitch num_sd_per_track,
    get_sd_pitch DemoTech 16 = Ok sd_pitch
    ∧ get_num_fingers_per_sd DemoTech 16 = Ok num_sd_per_track
    ∧ 50 + 40 = sd_pitch * num_sd_per_track
    ∧ 58 + 32 = sd_pitch * num_sd_per_track.
Proof.
  apply (conn_tracks_share_pitch DemoTech 16 50 40 58 32); reflexivity.
Defined.

(** ** mos.py: errors of drawing *)

(** X2: [draw_layout] of either template fails with [TypeError] as soon as
    one of the arguments its helper names is missing from the parameters,
    whatever the grid and the technology class are. *)
Theorem draw_layout_missing_argument
    (mos : AnalogMOSBase.t) (ext : AnalogMOSExt.t) (name : string) :
  (name ∈ mos_helper_args →
   AnalogMOSBase.params mos !! name = None →
   AnalogMOSBase.draw_layout mos
   = Raise (TypeError "missing required positional argument"))
  ∧ (name ∈ ext_helper_args →
     AnalogMOSExt.params ext !! name = None →
     AnalogMOSExt.draw_layout ext
     = Raise (TypeError "missing required positional argument")).
Proof.
  split; intros Hin Hnone.
  - unfold AnalogMOSBase.draw_layout, kwarg.
    unfold mos_helper_args in Hin.
    repeat (apply elem_of_cons in Hin as [-> | Hin];
            [ rewrite ?Hnone;
              repeat match goal with
                | |- context [AnalogMOSBase.params mos !! ?k] =>
                    destruct (AnalogMOSBase.params mos !! k); simpl;
                    try reflexivity; try discriminate
                end
            | ]).
    by apply elem_of_nil in Hin.
  - unfold AnalogMOSExt.draw_layout, kwarg.
    unfold ext_helper_args in Hin.
    repeat (apply elem_of_cons in Hin as [-> | Hin];
            [ rewrite ?Hnone;
              repeat match goal with
                | |- context [AnalogMOSExt.params ext !! ?k] =>
                    destruct (AnalogMOSExt.params ext !! k); simpl;
                    try reflexivity; try discriminate
                end
            | ]).
    by apply elem_of_nil in Hin.
Qed.

(** A transistor without its width and an extension without its top
    interface. *)
Lemma draw_layout_missing_argument_witness :
  AnalogMOSBase.draw_layout
    (new_mos demo_grid DemoTech 3 (delete "w" demo_mos_params))
  = Raise (TypeError "missing required positional argument")
  ∧ AnalogMOSExt.draw_layout
      (new_ext demo_grid DemoTech 3 (PInt 2)
         (delete "top_ext_info" (demo_ext_params 2)))
    = Raise (TypeError "missing required positional argument").
Proof.
  split.
  - apply (proj1 (draw_layout_missing_argument
                    (new_mos demo_grid DemoTech 3 (delete "w" demo_mos_params))
                    (new_ext demo_grid DemoTech 3 (PInt 2) ∅) "w")).
    + unfold mos_helper_args. set_solver.
    + reflexivity.
  - apply (proj2 (draw_layout_missing_argument
                    (new_mos demo_grid DemoTech 3 ∅)
                    (new_ext demo_grid DemoTech 3 (PInt 2)
                       (delete "top_ext_info" (demo_ext_params 2)))
                    "top_ext_info")).
    + unfold ext_helper_args. set_solver.
    + reflexivity.
Defined.

Section AnalogMOSBase_more.

Import AnalogMOSBase.

(** X3: when the dictionary that [get_mos_info] returns lacks one of the
    six entries [draw_layout] reads, [draw_layout] fails with [KeyError]
    for the first entry, in reading order, that is missing. *)
Theorem AnalogMOSBase_draw_layout_incomplete_mos_info (self : t)
    (lch w mos_type threshold fg : pyval) (lch_unit : Z)
    (mos_info : pydict) (key : string) :
  params self !! "lch" = Some lch →
  params self !! "w" = Some w →
  params self !! "mos_type" = Some mos_type →
  params self !! "threshold" = Some threshold →
  lch_to_unit (grid self) lch = Ok lch_unit →
  get_analog_unit_fg (_tech_cls self) = Ok fg →
  get_mos_info (_tech_cls self) lch_unit w mos_type threshold fg = Ok mos_info →
  first_missing mos_info mos_info_keys = Some key →
  draw_layout self = Raise (KeyError key).
Proof.
  intros H1 H2 H3 H4 Hunit Hfg Hinfo Hkey.
  unfold draw_layout, _draw_layout_helper.
  rewrite (kwarg_present _ _ _ H1), (kwarg_present _ _ _ H2),
    (kwarg_present _ _ _ H3), (kwarg_present _ _ _ H4).
  simpl. rewrite Hunit. simpl. rewrite Hfg. simpl. rewrite Hinfo. simpl.
  unfold first_missing, mos_info_keys in Hkey. simpl in Hkey.
  unfold getitem.
  repeat match type of Hkey with
    | context [bool_decide (mos_info !! ?k = None)] =>
        let E := fresh "E" in
        destruct (mos_info !! k) eqn:E; simpl in Hkey |- *;
        [ | injection Hkey as <-; reflexivity ]
    end.
  discriminate Hkey.
Qed.

(** On [MOSTech] itself the dictionary is empty; on a technology that
    forgets the gate wire coordinates the missing entry is [g_conn_y]. *)
Lemma AnalogMOSBase_draw_layout_incomplete_mos_info_witness :
  draw_layout (new_mos demo_grid MOSTech_abc 3 demo_mos_params)
  = Raise (KeyError "layout_info").
Proof.
  apply (AnalogMOSBase_draw_layout_incomplete_mos_info
           (new_mos demo_grid MOSTech_abc 3 demo_mos_params)
           (PFloat 16e-9) (PInt 4) (PStr "nch") (PStr "lvt") PNone 16 ∅);
    reflexivity.
Defined.

(** X4: a successful [draw_layout] leaves the grid, the parameters, the
    technology class and the top layer of the template as they were, and
    afterwards the six getters return the entries of the dictionary that
    [get_mos_info] returned, [get_edge_layout_info] being the layout
    information that was handed to [draw_mos]. *)
Theorem AnalogMOSBase_draw_layout_getters (self self' : t) :
  draw_layout self = Ok self' →
  grid self' = grid self
  ∧ params self' = params self
  ∧ _tech_cls self' = _tech_cls self
  ∧ prim_top_layer self' = prim_top_layer self
  ∧ ∃ lch_unit w mos_type threshold fg mos_info,
      get_mos_info (_tech_cls self) lch_unit w mos_type threshold fg
        = Ok mos_info
      ∧ mos_info !! "layout_info" = Some (get_edge_layout_info self')
      ∧ mos_info !! "ext_top_info" = Some (get_ext_top_info self')
      ∧ mos_info !! "ext_bot_info" = Some (get_ext_bot_info self')
      ∧ mos_info !! "sd_yc" = Some (get_sd_yc self')
      ∧ mos_info !! "g_conn_y" = Some (get_g_conn_y self')
      ∧ mos_info !! "d_conn_y" = Some (get_d_conn_y self')
      ∧ draw_mos (_tech_cls self) (drawn self) (get_edge_layout_info self')
          = Ok (drawn self').
Proof.
  unfold draw_layout, _draw_layout_helper. intros H.
  apply result_bind_inv in H as (lch & _ & H).
  apply result_bind_inv in H as (w & _ & H).
  apply result_bind_inv in H as (mos_type & _ & H).
  apply result_bind_inv in H as (threshold & _ & H).
  apply result_bind_inv in H as (lch_unit & _ & H).
  apply result_bind_inv in H as (fg & _ & H).
  apply result_bind_inv in H as (mos_info & Hinfo & H).
  apply result_bind_inv in H as (layout_info & Hli & H).
  apply result_bind_inv in H as (ext_top & Htop & H).
  apply result_bind_inv in H as (ext_bot & Hbot & H).
  apply result_bind_inv in H as (sd_yc & Hsd & H).
  apply result_bind_inv in H as (g_conn_y & Hg & H).
  apply result_bind_inv in H as (d_conn_y & Hd & H).
  apply result_bind_inv in H as (drawn' & Hdrawn & H).
  injection H as <-. simpl.
  do 4 (split; [reflexivity|]).
  exists lch_unit, w, mos_type, threshold, fg, mos_info.
  unfold get_edge_layout_info, get_ext_top_info, get_ext_bot_info,
    get_sd_yc, get_g_conn_y, get_d_conn_y. simpl.
  repeat split; auto using getitem_inv.
Qed.

Lemma AnalogMOSBase_draw_layout_getters_witness :
  ∃ self',
    draw_layout (new_mos demo_grid DemoTech 3 demo_mos_params) = Ok self'
    ∧ params self' = demo_mos_params
    ∧ get_g_conn_y self' = PTuple [PInt 0; PInt 60]
    ∧ get_d_conn_y self' = PTuple [PInt 100; PInt 240]
    ∧ get_sd_yc self' = PInt 96.
Proof.
  destruct (draw_layout (new_mos demo_grid DemoTech 3 demo_mos_params))
    as [self'|e] eqn:Hdraw.
  - exists self'. split; [reflexivity|].
    destruct (AnalogMOSBase_draw_layout_getters _ _ Hdraw)
      as (_ & Hparams & _).
    split; [exact Hparams|].
    vm_compute in Hdraw. injection Hdraw as <-.
    repeat split.
  - vm_compute in Hdraw. discriminate Hdraw.
Defined.

End AnalogMOSBase_more.

(** ** mos.py: the channel length *)

(** X5: the conversion of the channel length to resolution units fails
    with [TypeError] when [lch] is not a number, and with
    [ZeroDivisionError] when the layout unit of the grid, or its resolution,
    is zero. *)
Theorem lch_to_unit_errors (grid : RoutingGrid) (lch : pyval) :
  (is_number lch = false →
   lch_to_unit grid lch = Raise (TypeError "unsupported operand type(s) for /"))
  ∧ (∀ a, as_float lch = Ok a →
          PrimFloat.eqb (layout_unit grid) 0 = true →
          lch_to_unit grid lch = Raise ZeroDivisionError)
  ∧ (∀ a, as_float lch = Ok a →
          PrimFloat.eqb (layout_unit grid) 0 = false →
          PrimFloat.eqb (resolution grid) 0 = true →
          lch_to_unit grid lch = Raise ZeroDivisionError).
Proof.
  unfold lch_to_unit, float_truediv.
  split; [|split].
  - destruct lch; simpl; intros H; try discriminate H; reflexivity.
  - intros a -> Hzero. simpl. by rewrite Hzero.
  - intros a -> Hnz Hzero. simpl. rewrite Hnz. simpl. by rewrite Hzero.
Qed.

Lemma lch_to_unit_errors_witness :
  lch_to_unit demo_grid (PStr "16n")
  = Raise (TypeError "unsupported operand type(s) for /")
  ∧ lch_to_unit {| resolution := 0.001; layout_unit := 0 |} (PInt 16)
    = Raise ZeroDivisionError
  ∧ lch_to_unit {| resolution := 0; layout_unit := 1e-6 |} (PFloat 16e-9)
    = Raise ZeroDivisionError.
Proof.
  split; [|split].
  - apply (proj1 (lch_to_unit_errors demo_grid (PStr "16n"))). reflexivity.
  - apply (proj1 (proj2 (lch_to_unit_errors
                           {| resolution := 0.001; layout_unit := 0 |}
                           (PInt 16))) 16%float);
      reflexivity.
  - apply (proj2 (proj2 (lch_to_unit_errors
                           {| resolution := 0; layout_unit := 1e-6 |}
                           (PFloat 16e-9))) 16e-9%float);
      reflexivity.
Defined.

(** X6: when the channel length does not convert, [draw_layout] of either
    template fails with the exception of the conversion, whatever the
    technology class: no method of the technology decides the outcome. *)
Theorem draw_layout_lch_error
    (mos : AnalogMOSBase.t) (ext : AnalogMOSExt.t) (lch : pyval) (e : pyexn) :
  (AnalogMOSBase.params mos !! "lch" = Some lch →
   (∀ name, name ∈ mos_helper_args →
            is_Some (AnalogMOSBase.params mos !! name)) →
   lch_to_unit (AnalogMOSBase.grid mos) lch = Raise e →
   AnalogMOSBase.draw_layout mos = Raise e)
  ∧ (AnalogMOSExt.params ext !! "lch" = Some lch →
     (∀ name, name ∈ ext_helper_args →
              is_Some (AnalogMOSExt.params ext !! name)) →
     lch_to_unit (AnalogMOSExt.grid ext) lch = Raise e →
     AnalogMOSExt.draw_layout ext = Raise e).
Proof.
  split; intros Hlch Hall Hunit.
  - unfold AnalogMOSBase.draw_layout, AnalogMOSBase._draw_layout_helper.
    rewrite (kwarg_present _ _ _ Hlch). simpl.
    destruct (Hall "w") as [w Hw]; [unfold mos_helper_args; set_solver|].
    destruct (Hall "mos_type") as [mt Hmt]; [unfold mos_helper_args; set_solver|].
    destruct (Hall "threshold") as [th Hth]; [unfold mos_helper_args; set_solver|].
    rewrite (kwarg_present _ _ _ Hw), (kwarg_present _ _ _ Hmt),
      (kwarg_present _ _ _ Hth). simpl.
    by rewrite Hunit.
  - unfold AnalogMOSExt.draw_layout, AnalogMOSExt._draw_layout_helper.
    rewrite (kwarg_present _ _ _ Hlch). simpl.
    destruct (Hall "w") as [w Hw]; [unfold ext_helper_args; set_solver|].
    destruct (Hall "bot_mtype") as [bm Hbm]; [unfold ext_helper_args; set_solver|].
    destruct (Hall "top_mtype") as [tm Htm]; [unfold ext_helper_args; set_solver|].
    destruct (Hall "bot_thres") as [bt Hbt]; [unfold ext_helper_args; set_solver|].
    destruct (Hall "top_thres") as [tt Htt]; [unfold ext_helper_args; set_solver|].
    destruct (Hall "top_ext_info") as [te Hte]; [unfold ext_helper_args; set_solver|].
    destruct (Hall "bot_ext_info") as [be Hbe]; [unfold ext_helper_args; set_solver|].
    rewrite (kwarg_present _ _ _ Hw), (kwarg_present _ _ _ Hbm),
      (kwarg_present _ _ _ Htm), (kwarg_present _ _ _ Hbt),
      (kwarg_present _ _ _ Htt), (kwarg_present _ _ _ Hte),
      (kwarg_present _ _ _ Hbe). simpl.
    by rewrite Hunit.
Qed.

(** A transistor whose channel length is a string, and an extension on a
    grid of resolution zero. *)
Lemma draw_layout_lch_error_witness :
  AnalogMOSBase.draw_layout
    (new_mos demo_grid DemoTech 3 (<["lch" := PStr "16n"]> demo_mos_params))
  = Raise (TypeError "unsupported operand type(s) for /")
  ∧ AnalogMOSExt.draw_layout
      (new_ext {| resolution := 0; layout_unit := 1e-6 |} DemoTech 3 (PInt 2)
         (demo_ext_params 2))
    = Raise ZeroDivisionError.
Proof.
  split.
  - apply (proj1 (draw_layout_lch_error
                    (new_mos demo_grid DemoTech 3
                       (<["lch" := PStr "16n"]> demo_mos_params))
                    (new_ext demo_grid DemoTech 3 (PInt 2) ∅)
                    (PStr "16n") _)).
    + reflexivity.
    + intros name Hin. unfold mos_helper_args in Hin.
      repeat (apply elem_of_cons in Hin as [-> | Hin]; [by eexists|]).
      by apply elem_of_nil in Hin.
    + reflexivity.
  - apply (proj2 (draw_layout_lch_error
                    (new_mos demo_grid DemoTech 3 ∅)
                    (new_ext {| resolution := 0; layout_unit := 1e-6 |}
                       DemoTech 3 (PInt 2) (demo_ext_params 2))
                    (PFloat 16e-9) _)).
    + reflexivity.
    + intros name Hin. unfold ext_helper_args in Hin.
      repeat (apply elem_of_cons in Hin as [-> | Hin]; [by eexists|]).
      by apply elem_of_nil in Hin.
    + reflexivity.
Defined.

Section AnalogMOSExt_more.

Import AnalogMOSExt.

(** X7: an [AnalogMOSExt] is built only from parameters that have an
    [is_laygo] entry, and then its finger count is [get_analog_unit_fg()]
    whether or not it is a Laygo extension; only the top layer depends on
    [is_laygo]: the digital connection layer for a Laygo extension, the
    transistor connection layer otherwise.  Without the entry [__init__]
    fails with [KeyError]. *)
Theorem AnalogMOSExt_init_spec (grid0 : RoutingGrid) (tech_cls : MOSTech)
    (params0 : pydict) :
  (params0 !! "is_laygo" = None →
   init grid0 tech_cls params0 = Raise (KeyError "is_laygo"))
  ∧ (∀ self, init grid0 tech_cls params0 = Ok self →
       ∃ is_laygo,
         params0 !! "is_laygo" = Some is_laygo
         ∧ get_analog_unit_fg tech_cls = Ok (_fg self)
         ∧ (if py_truthy is_laygo then get_dig_conn_layer tech_cls
            else get_mos_conn_layer tech_cls) = Ok (prim_top_layer self)
         ∧ grid self = grid0 ∧ params self = params0
         ∧ _tech_cls self = tech_cls
         ∧ get_edge_layout_info self = PNone ∧ drawn self = []).
Proof.
  unfold init. split.
  - intros Hnone. by rewrite (getitem_missing _ _ Hnone).
  - intros self H.
    apply result_bind_inv in H as (is_laygo & Hl & H).
    apply result_bind_inv in H as ([layer fg] & Hpair & H).
    injection H as <-. simpl.
    exists is_laygo. split; [by apply getitem_inv|].
    destruct (py_truthy is_laygo);
      apply result_bind_inv in Hpair as (layer' & Hlayer & Hpair);
      apply result_bind_inv in Hpair as (fg' & Hfg & Hpair);
      injection Hpair as <- <-; auto 10.
Qed.

(** A Laygo extension and a plain one on the demo technology: layers 1
    and 3, two fingers each. *)
Lemma AnalogMOSExt_init_spec_witness :
  (prim_top_layer <$> init demo_grid DemoTech
                        (<["is_laygo" := PBool true]> (demo_ext_params 2)))
  = Ok 1
  ∧ (prim_top_layer <$> init demo_grid DemoTech (demo_ext_params 2)) = Ok 3
  ∧ (_fg <$> init demo_grid DemoTech
               (<["is_laygo" := PBool true]> (demo_ext_params 2)))
    = (_fg <$> init demo_grid DemoTech (demo_ext_params 2))
  ∧ init demo_grid DemoTech (delete "is_laygo" (demo_ext_params 2))
    = Raise (KeyError "is_laygo").
Proof.
  split; [reflexivity|]. split; [reflexivity|]. split; [reflexivity|].
  apply (proj1 (AnalogMOSExt_init_spec demo_grid DemoTech
                  (delete "is_laygo" (demo_ext_params 2)))).
  reflexivity.
Defined.

(** X8: the layout base name of a Laygo extension is the base name of the
    same extension that is no Laygo extension, with [laygo_] in front; so
    the two never share a name. *)
Theorem AnalogMOSExt_laygo_basename
    (py_str : pyval → string) (float_to_si_string : pyval → result string)
    (plain laygo : t) (off on : pyval) (name : string) :
  params plain !! "is_laygo" = Some off →
  py_truthy off = false →
  py_truthy on = true →
  params laygo = <["is_laygo" := on]> (params plain) →
  get_layout_basename py_str float_to_si_string plain = Ok name →
  get_layout_basename py_str float_to_si_string laygo = Ok ("laygo_" +:+ name)
  ∧ "laygo_" +:+ name ≠ name.
Proof.
  intros Hoff Hfalse Htrue Hparams.
  unfold get_layout_basename. rewrite Hparams.
  unfold getitem.
  rewrite !lookup_insert. simpl. rewrite Hoff.
  intros H.
  apply result_bind_inv in H as (bm & E1 & H).
  apply result_bind_inv in H as (tm & E2 & H).
  apply result_bind_inv in H as (bt & E3 & H).
  apply result_bind_inv in H as (tt & E4 & H).
  apply result_bind_inv in H as (lch & E5 & H).
  apply result_bind_inv in H as (lstr & E6 & H).
  apply result_bind_inv in H as (w & E7 & H).
  apply result_bind_inv in H as (wstr & E8 & H).
  simpl in H. rewrite Hfalse in H. injection H as <-.
  rewrite E1; simpl. rewrite E2; simpl. rewrite E3; simpl.
  rewrite E4; simpl. rewrite E5; simpl. rewrite E6; simpl.
  rewrite E7; simpl. rewrite E8; simpl. rewrite Htrue.
  split; [reflexivity|].
  intros Heq. apply (f_equal String.length) in Heq.
  simpl in Heq. lia.
Qed.

Lemma AnalogMOSExt_laygo_basename_witness :
  get_layout_basename demo_str demo_si_string
    (new_ext demo_grid DemoTech 1 (PInt 2)
       (<["is_laygo" := PBool true]> (<["lch" := PInt 16]> (demo_ext_params 3))))
  = Ok "laygo_ext_bnch_tpch_l16_w3_blvt_thvt".
Proof.
  apply (AnalogMOSExt_laygo_basename demo_str demo_si_string
           (new_ext demo_grid DemoTech 3 (PInt 2)
              (<["lch" := PInt 16]> (demo_ext_params 3)))
           (new_ext demo_grid DemoTech 1 (PInt 2)
              (<["is_laygo" := PBool true]>
                 (<["lch" := PInt 16]> (demo_ext_params 3))))
           (PBool false) (PBool true) "ext_bnch_tpch_l16_w3_blvt_thvt");
    reflexivity.
Defined.

End AnalogMOSExt_more.

(** ** mos.py: the unique key *)

(** X9: [compute_unique_key] reads every parameter that [get_params_info]
    declares: with any one of them missing from the parameters it raises
    and returns no key.  This holds for the four parameters of
    [AnalogMOSBase] and for the nine of [AnalogMOSExt]. *)
Theorem compute_unique_key_needs_every_parameter
    (py_str : pyval → string) (float_to_si_string : pyval → result string)
    (to_immutable_id : pyval → result pyval)
    (mos : AnalogMOSBase.t) (ext : AnalogMOSExt.t) (name : string) :
  (name ∈ dom AnalogMOSBase.get_params_info →
   AnalogMOSBase.params mos !! name = None →
   ∃ e, AnalogMOSBase.compute_unique_key py_str float_to_si_string mos
        = Raise e)
  ∧ (name ∈ dom AnalogMOSExt.get_params_info →
     AnalogMOSExt.params ext !! name = None →
     ∃ e, AnalogMOSExt.compute_unique_key py_str float_to_si_string
            to_immutable_id ext = Raise e).
Proof.
  split.
  - replace (dom AnalogMOSBase.get_params_info)
      with ({[ "lch"; "w"; "mos_type"; "threshold" ]} : gset string)
      by reflexivity.
    rewrite !elem_of_union, !elem_of_singleton.
    unfold AnalogMOSBase.compute_unique_key,
      AnalogMOSBase.get_layout_basename, getitem.
    intros [[[-> | ->] | ->] | ->] Hnone; rewrite Hnone; simpl; run_key; eauto.
  - replace (dom AnalogMOSExt.get_params_info)
      with ({[ "lch"; "w"; "bot_mtype"; "top_mtype"; "bot_thres";
               "top_thres"; "top_ext_info"; "bot_ext_info"; "is_laygo" ]}
            : gset string)
      by reflexivity.
    rewrite !elem_of_union, !elem_of_singleton.
    unfold AnalogMOSExt.compute_unique_key,
      AnalogMOSExt.get_layout_basename, getitem.
    intros [[[[[[[[-> | ->] | ->] | ->] | ->] | ->] | ->] | ->] | ->] Hnone;
      rewrite Hnone; simpl; run_key; eauto.
Qed.

(** A transistor without a threshold, an extension without its bottom
    interface. *)
Lemma compute_unique_key_needs_every_parameter_witness :
  (∃ e, AnalogMOSBase.compute_unique_key demo_str demo_si_string
          (new_mos demo_grid DemoTech 3
             (delete "threshold" (<["lch" := PInt 16]> demo_mos_params)))
        = Raise e)
  ∧ (∃ e, AnalogMOSExt.compute_unique_key demo_str demo_si_string
            demo_immutable_id
            (new_ext demo_grid DemoTech 3 (PInt 2)
               (delete "bot_ext_info"
                  (<["lch" := PInt 16]> (demo_ext_params 3))))
          = Raise e).
Proof.
  split.
  - apply (proj1 (compute_unique_key_needs_every_parameter
                    demo_str demo_si_string demo_immutable_id
                    _ (new_ext demo_grid DemoTech 3 (PInt 2) ∅)
                    "threshold")).
    + apply elem_of_dom. by eexists.
    + reflexivity.
  - apply (proj2 (compute_unique_key_needs_every_parameter
                    demo_str demo_si_string demo_immutable_id
                    (new_mos demo_grid DemoTech 3 ∅) _
                    "bot_ext_info")).
    + apply elem_of_dom. by eexists.
    + reflexivity.
Defined.

Example compute_unique_key_missing_demo :
  AnalogMOSBase.compute_unique_key demo_str demo_si_string
    (new_mos demo_grid DemoTech 3
       (delete "threshold" (<["lch" := PInt 16]> demo_mos_params)))
  = Raise (KeyError "threshold").
Proof. vm_compute. reflexivity. Qed.

(** ** mos_char.py: the rows and pins of Transistor *)

Section Transistor_more.

Import Transistor.

(** X10: the row lists that [Transistor.draw_layout] hands to [draw_base]
    are consistent: the four nmos lists have one common length and so have
    the four pmos lists, each 0 or 1; there is an nmos row exactly when the
    transistor is an nch or [draw_other] is set, and likewise for pmos; the
    row of the transistor's own type gets [nd_tracks] drain tracks and a row
    drawn only for [draw_other] gets one. *)
Theorem Transistor_draw_base_rows (self : params) :
  ∃ nw_list nth_list pw_list pth_list ng_tracks nds_tracks pg_tracks
    pds_tracks rest,
    draw_layout self
    = DrawBase (lch self) (fg self + 2 * fg_dum self) (ptap_w self)
        (ntap_w self) nw_list nth_list pw_list pth_list (num_track_sep self)
        ng_tracks nds_tracks pg_tracks pds_tracks :: rest
    ∧ length nw_list = length nth_list
    ∧ length nth_list = length ng_tracks
    ∧ length ng_tracks = length nds_tracks
    ∧ length pw_list = length pth_list
    ∧ length pth_list = length pg_tracks
    ∧ length pg_tracks = length pds_tracks
    ∧ (length nw_list = 1%nat ↔ mos_type self = "nch" ∨ draw_other self = true)
    ∧ (length nw_list = 0%nat ↔ ¬ (mos_type self = "nch" ∨ draw_other self = true))
    ∧ (length pw_list = 1%nat ↔ mos_type self = "pch" ∨ draw_other self = true)
    ∧ (length pw_list = 0%nat ↔ ¬ (mos_type self = "pch" ∨ draw_other self = true))
    ∧ (mos_type self = "nch" → nds_tracks = [nd_tracks self])
    ∧ (mos_type self = "pch" → pds_tracks = [nd_tracks self])
    ∧ (mos_type self ≠ "nch" → draw_other self = true → nds_tracks = [1])
    ∧ (mos_type self ≠ "pch" → draw_other self = true → pds_tracks = [1]).
Proof.
  unfold draw_layout.
  destruct (String.eqb_spec (mos_type self) "nch") as [Hn | Hn];
    destruct (String.eqb_spec (mos_type self) "pch") as [Hp | Hp];
    destruct (draw_other self); simpl;
    (do 9 eexists; split; [reflexivity|]; simpl;
     repeat split; try reflexivity; try congruence; try tauto;
     try (intros; exfalso; congruence);
     try (intros [? | ?]; congruence);
     try (intros ? [? | ?]; congruence);
     try (intros ?; discriminate); auto).
Qed.

(** X11: the pins of [Transistor] land inside the tracks the row reserves.
    The source pin is on gate track 0 and the gate pin on the last of the
    [2 + num_track_sep] gate tracks, with exactly [num_track_sep] gate
    tracks strictly between the two; the drain pin is on the middle one of
    the [nd_tracks] drain tracks.  The gate pin is inside the reserved
    tracks exactly when [num_track_sep >= -1], the drain pin exactly when
    [nd_tracks >= 1]. *)
Theorem Transistor_pin_tracks_in_row (self : params) :
  let calls := draw_layout self in
  let num_gate_tr := 2 + num_track_sep self in
  ∃ g s d,
    pin_track "g" calls = Some g ∧ pin_track "s" calls = Some s
    ∧ pin_track "d" calls = Some d
    ∧ tr_type g = TrGate ∧ tr_type s = TrGate ∧ tr_type d = TrDrainSource
    ∧ tr_row_idx g = 0 ∧ tr_row_idx s = 0 ∧ tr_row_idx d = 0
    ∧ tr_mos_type g = mos_type self ∧ tr_mos_type s = mos_type self
    ∧ tr_mos_type d = mos_type self
    ∧ tr_idx s = 0
    ∧ tr_idx g = num_gate_tr - 1
    ∧ tr_idx g - tr_idx s - 1 = num_track_sep self
    ∧ (0 ≤ tr_idx g < num_gate_tr ↔ -1 ≤ num_track_sep self)
    ∧ (0 ≤ tr_idx d < nd_tracks self ↔ 1 ≤ nd_tracks self)
    ∧ (1 ≤ nd_tracks self →
       let below := tr_idx d in
       let above := nd_tracks self - 1 - tr_idx d in
       above ≤ below ≤ above + 1).
Proof.
  intros calls num_gate_tr. subst calls num_gate_tr.
  unfold draw_layout.
  destruct (String.eqb (mos_type self) "pch"); simpl;
    (do 3 eexists; do 3 (split; [reflexivity|]); simpl;
     repeat split; try reflexivity; try lia;
     try (intros; apply Z.div_pos; lia);
     try (intros; apply Z.div_lt_upper_bound; lia);
     try (intros [H1 H2]; destruct (Z_lt_le_dec (nd_tracks self) 1); [|lia];
          exfalso; lia);
     try (pose proof (Z.div_mod (nd_tracks self) 2 ltac:(lia));
          pose proof (Z.mod_pos_bound (nd_tracks self) 2 ltac:(lia)); lia)).
Qed.

(** X12: the device of [Transistor] is centred in its row: [draw_mos_conn]
    starts at column [fg_dum] and spans [fg] fingers, which leaves [fg_dum]
    of the [fg + 2 * fg_dum] fingers of the row on each side.  The
    directions [sdir, ddir] of source and drain are [2, 0] for a pch and
    [0, 2] otherwise. *)
Theorem Transistor_device_is_centred (self : params) :
  ∃ fg_tot col_idx fg_conn sdir ddir first rest,
    draw_layout self = first :: DrawMosConn (mos_type self) 0 col_idx fg_conn
                                  sdir ddir (min_ds_cap self) :: rest
    ∧ row_fingers (draw_layout self) = Some fg_tot
    ∧ col_idx = fg_dum self
    ∧ fg_conn = fg self
    ∧ fg_tot - (col_idx + fg_conn) = fg_dum self
    ∧ sdir + ddir = 2
    ∧ (mos_type self = "pch" → sdir = 2 ∧ ddir = 0)
    ∧ (mos_type self ≠ "pch" → sdir = 0 ∧ ddir = 2).
Proof.
  unfold draw_layout.
  destruct (String.eqb_spec (mos_type self) "pch") as [Hp | Hp]; simpl;
    (do 7 eexists; split; [reflexivity|]; simpl;
     repeat split; try reflexivity; try lia; try congruence).
Qed.

End Transistor_more.

(** ** mos_char.py: the rows and pins of TransistorGD *)

Section TransistorGD_more.

Import TransistorGD.

(** X13: in [TransistorGD] the wide wires always fit the tracks the rows
    reserve: every row gets [hm_width] gate tracks, the width of the gate
    wire, and at least [hm_cur_width] drain tracks, the width of the drain
    wire; the row of the transistor's own type gets
    [max(nd_tracks, hm_cur_width)] drain tracks, which is never fewer than
    asked for. *)
Theorem TransistorGD_wires_fit (self : params) :
  ∃ nw_list nth_list pw_list pth_list ng_tracks nds_tracks pg_tracks
    pds_tracks rest,
    fst (draw_layout self)
    = Base (DrawBase (lch self) (fg self + 2 * fg_dum self) (ptap_w self)
              (ntap_w self) nw_list nth_list pw_list pth_list
              (num_track_sep self)
              ng_tracks nds_tracks pg_tracks pds_tracks) :: rest
    ∧ Forall (λ n, n = hm_width self) (ng_tracks ++ pg_tracks)
    ∧ Forall (λ n, hm_cur_width self ≤ n) (nds_tracks ++ pds_tracks)
    ∧ (mos_type self = "nch" →
       nds_tracks = [Z.max (nd_tracks self) (hm_cur_width self)])
    ∧ (mos_type self = "pch" →
       pds_tracks = [Z.max (nd_tracks self) (hm_cur_width self)])
    ∧ nd_tracks self ≤ Z.max (nd_tracks self) (hm_cur_width self).
Proof.
  unfold draw_layout.
  destruct (int_truediv_2 (hm_width self - 1));
    destruct (String.eqb_spec (mos_type self) "nch") as [Hn | Hn];
    destruct (String.eqb_spec (mos_type self) "pch") as [Hp | Hp];
    destruct (draw_other self); simpl;
    (do 9 eexists; split; [reflexivity|]; simpl;
     repeat split; try congruence; try lia;
     repeat constructor; lia).
Qed.

(** X14: [TransistorGD.draw_layout] always draws the base and the
    transistor connection first, the device centred as in [Transistor]; the
    only exception it raises is the [OverflowError] of the gate track index
    [(hm_width - 1) / 2], and then nothing else has been drawn.  Otherwise
    the gate wire, [hm_width] wide, and the drain wire, [hm_cur_width] wide,
    on the middle one of the drain tracks, are put on the row of the
    transistor, and the source goes to the substrate of the transistor's
    well: ntap for a pch, ptap otherwise. *)
Theorem TransistorGD_draw_layout_outcome (self : params) :
  let nd := Z.max (nd_tracks self) (hm_cur_width self) in
  ∃ base sdir ddir rest,
    fst (draw_layout self)
    = Base base :: Base (DrawMosConn (mos_type self) 0 (fg_dum self) (fg self)
                           sdir ddir (min_ds_cap self)) :: rest
    ∧ row_fingers [base] = Some (fg self + 2 * fg_dum self)
    ∧ sdir + ddir = 2
    ∧ (mos_type self = "pch" ↔ sdir = 2)
    ∧ (∀ e, snd (draw_layout self) = Some e →
            int_truediv_2 (hm_width self - 1) = Raise e
            ∧ e = OverflowError "integer division result too large for a float"
            ∧ rest = [])
    ∧ (snd (draw_layout self) = None →
       ∃ g_idx tail,
         int_truediv_2 (hm_width self - 1) = Ok g_idx
         ∧ rest
           = WidePinOnTrack "g" "g" (mos_type self) 0 TrGate (PFloat g_idx)
               (hm_width self)
             :: WidePinOnTrack "d" "d" (mos_type self) 0 TrDrainSource
                  (PInt (nd / 2)) (hm_cur_width self)
             :: ConnectToSubstrate
                  (if String.eqb (mos_type self) "pch" then "ntap" else "ptap")
                  "s"
             :: Base FillDummy
             :: SubstratePins "s" (if draw_other self then "s:" else "s")
             :: tail
         ∧ (1 ≤ nd → 0 ≤ nd / 2 < nd)).
Proof.
  intros nd. subst nd. unfold draw_layout.
  destruct (int_truediv_2 (hm_width self - 1)) as [g_idx | e] eqn:Hdiv;
    destruct (String.eqb_spec (mos_type self) "pch") as [Hp | Hp]; simpl;
    (do 4 eexists; split; [reflexivity|]; simpl;
     split; [reflexivity|]; split; [lia|];
     split; [split; [reflexivity || (intros; congruence)
                    | (intros; congruence) || (intros; lia) || reflexivity]|]).
  all: split.
  all: try (intros e' [= <-]).
  all: try (intros e' He'; discriminate He').
  all: try (intros Hnone; discriminate Hnone).
  all: try (intros _; do 2 eexists; split; [reflexivity|];
            split; [reflexivity|];
            intros Hnd; split;
            [ apply Z.div_pos; lia | apply Z.div_lt_upper_bound; lia ]).
  all: unfold int_truediv_2 in Hdiv;
    destruct (is_infinity _); [|discriminate Hdiv];
    injection Hdiv as <-; repeat split; reflexivity.
Qed.

(** The demo transistor: a pch, gate wire 3 tracks wide on track 1.0, drain
    wire 2 tracks wide on track 1 of 2, source to the ntap. *)
Example TransistorGD_draw_layout_demo :
  draw_layout demo_transistor_gd
  = ([ Base (DrawBase (PFloat 16e-9) 6 (PInt 6) (PInt 6)
               [PInt 4] [PStr "lvt"] [PInt 4] [PStr "lvt"] 0
               [3] [2] [3] [2]);
       Base (DrawMosConn "pch" 0 1 4 2 0 false);
       WidePinOnTrack "g" "g" "pch" 0 TrGate (PFloat 1) 3;
       WidePinOnTrack "d" "d" "pch" 0 TrDrainSource (PInt 1) 2;
       ConnectToSubstrate "ntap" "s";
       Base FillDummy;
       SubstratePins "s" "s:" ], None).
Proof. vm_compute. reflexivity. Qed.

(** The gate track index is a float: 0.5 for a gate wire two tracks wide;
    it overflows from [hm_width = 2^1025 + 1] on. *)
Example int_truediv_2_demo :
  int_truediv_2 (2 - 1) = Ok 0.5%float
  ∧ int_truediv_2 (3 - 1) = Ok 1%float
  ∧ int_truediv_2 (2 ^ 1025 + 1 - 1)
    = Raise (OverflowError "integer division result too large for a float").
Proof. repeat split; vm_compute; reflexivity. Qed.

End TransistorGD_more.

(** ** test_scripts/strongarm_latch.py: the rows and wires of StrongArmLatch *)

Section StrongArmLatch_more.

Import StrongArmLatch.

Variable base : LaygoBase.
Variable self : params.

(** X15: in every one of the six rows [StrongArmLatch.draw_layout] places its
    primitives side by side without gap or overlap: the first at column 0,
    each next one at the column where the one before it ends, and the last
    one ends at [tot_blk = 1 + 2 * (max(num_pblk + 2, num_nblk) + num_dblk)],
    which is the number of columns given to [set_laygo_size].  No primitive
    is placed in another row. *)
Theorem StrongArmLatch_rows_fill_the_block :
  let calls := draw_layout base self in
  let tot_blk :=
    1 + 2 * (Z.max (num_pblk self + 2) (num_nblk self) + num_dblk self) in
  laygo_size calls = Some tot_blk
  ∧ Forall (λ row, tiles 0 (placed_in_row row calls) tot_blk) [0; 1; 2; 3; 4; 5]
  ∧ Forall (λ i, 0 ≤ inst_row i ≤ 5) (placed calls).
Proof.
  intros calls tot_blk. subst calls tot_blk.
  split; [reflexivity|]. split.
  - repeat (apply Forall_cons; split); try apply Forall_nil_2;
      simpl; unfold inst_col, num_prims, add_laygo_primitive; simpl; lia.
  - repeat (apply Forall_cons; split); try apply Forall_nil_2;
      unfold inst_row; simpl; lia.
Qed.

(** X16: the latch is symmetric about its middle column.  In every row the
    kinds of primitive (block type, number of primitives, [split_s]) read
    the same from the left and from the right; the number of columns is
    odd, and in each of the four transistor rows the middle column
    [max(num_pblk + 2, num_nblk) + num_dblk] holds a single primitive of
    its own. *)
Theorem StrongArmLatch_is_symmetric :
  let calls := draw_layout base self in
  let mid := Z.max (num_pblk self + 2) (num_nblk self) + num_dblk self in
  laygo_size calls = Some (2 * mid + 1)
  ∧ Forall (λ row, let shapes := map prim_shape (placed_in_row row calls) in
                   rev shapes = shapes) [0; 1; 2; 3; 4; 5]
  ∧ Forall (λ row, Exists (λ i, inst_col i = mid ∧ lp_nx (inst_prim i) = None)
                     (placed_in_row row calls))
      [1; 2; 3; 4].
Proof.
  intros calls mid. subst calls mid.
  split; [simpl; apply (f_equal Some); lia|]. split.
  - repeat (apply Forall_cons; split); try apply Forall_nil_2;
      simpl; unfold prim_shape, num_prims, add_laygo_primitive; simpl;
      reflexivity.
  - repeat (apply Forall_cons; split); try apply Forall_nil_2;
      unfold placed_in_row, placed, draw_layout, inst_row; simpl.
    + do 2 apply Exists_cons_tl. apply Exists_cons_hd.
      unfold inst_col; simpl. split; [lia | reflexivity].
    + do 3 apply Exists_cons_tl. apply Exists_cons_hd.
      unfold inst_col; simpl. split; [lia | reflexivity].
    + do 3 apply Exists_cons_tl. apply Exists_cons_hd.
      unfold inst_col; simpl. split; [lia | reflexivity].
    + do 4 apply Exists_cons_tl. apply Exists_cons_hd.
      unfold inst_col; simpl. split; [lia | reflexivity].
Qed.

(** X17: [StrongArmLatch.draw_layout] checks none of its block counts.  The
    numbers of primitives it asks for are all non-negative exactly when
    [num_pblk] and [num_nblk] are, the pmos row fits
    ([num_pblk + 2 <= num_dblk + max(num_pblk + 2, num_nblk)]) and the nmos
    rows keep one dummy column on each side
    ([num_nblk + 1 <= num_dblk + max(num_pblk + 2, num_nblk)]); with
    [num_dblk = 0] and [num_nblk >= num_pblk + 2] the outer dummies of the
    inverter and input rows are asked for -1 times. *)
Theorem StrongArmLatch_block_counts :
  let calls := draw_layout base self in
  let tot_blk_max := Z.max (num_pblk self + 2) (num_nblk self) in
  (Forall (λ i, 0 ≤ num_prims i) (placed calls)
   ↔ 0 ≤ num_pblk self ∧ 0 ≤ num_nblk self
     ∧ num_pblk self + 2 ≤ num_dblk self + tot_blk_max
     ∧ num_nblk self + 1 ≤ num_dblk self + tot_blk_max)
  ∧ (num_dblk self = 0 → num_pblk self + 2 ≤ num_nblk self →
     Exists (λ i, lp_nx (inst_prim i) = Some (-1)) (placed calls)).
Proof.
  intros calls tot_blk_max. subst calls tot_blk_max. split; [split|].
  - intros H. simpl in H.
    repeat match goal with
           | H : Forall _ (_ :: _) |- _ =>
               apply Forall_cons in H; destruct H as [? H]
           end.
    unfold num_prims in *; simpl in *. lia.
  - intros H. repeat constructor; unfold num_prims; simpl; lia.
  - intros Hd Hn. unfold placed, draw_layout; simpl.
    do 10 apply Exists_cons_tl. apply Exists_cons_hd.
    simpl. apply (f_equal Some). lia.
Qed.

(** X18: the only tracks [StrongArmLatch.draw_layout] names by layer and
    index are the nmos mid track and the nmos output track, each used for
    the two sides, both on the layer above the connection layer.  The mid
    track is the first drain/source track of row 3 lowered to stay strictly
    below the output track, the first gate-bar track of row 3, so the two
    nets never share a track. *)
Theorem StrongArmLatch_mid_below_output :
  let hm_layer := conn_layer base + 1 in
  let nout_idx := get_track_index base 3 "gb" 0 in
  ∃ mid_idx,
    explicit_tracks (draw_layout base self)
    = [(hm_layer, mid_idx); (hm_layer, mid_idx);
       (hm_layer, nout_idx); (hm_layer, nout_idx)]
    ∧ mid_idx < nout_idx
    ∧ mid_idx ≤ get_track_index base 3 "ds" 0
    ∧ (get_track_index base 3 "ds" 0 < nout_idx →
       mid_idx = get_track_index base 3 "ds" 0).
Proof.
  intros hm_layer nout_idx. subst hm_layer nout_idx.
  eexists. split; [reflexivity|]. lia.
Qed.

(** X19: [StrongArmLatch.draw_layout] leaves no gate floating and connects
    none twice: the thirty instances are distinct, and the gate of every
    transistor primitive is given to [connect_to_tracks] exactly once; the
    gates of the two substrate rows are never connected. *)
Theorem StrongArmLatch_gates_connected_once :
  let calls := draw_layout base self in
  NoDup (map inst_id (placed calls))
  ∧ length (placed calls) = 30%nat
  ∧ Forall (λ i, num_connections (inst_id i) "g" calls
                 = if String.eqb (lp_blk_type (inst_prim i)) "sub"
                   then 0%nat else 1%nat) (placed calls).
Proof.
  intros calls. subst calls. split; [|split].
  - apply NoDup_ListNoDup. simpl.
    repeat (constructor; [simpl; intuition discriminate|]). constructor.
  - reflexivity.
  - repeat constructor.
Qed.

End StrongArmLatch_more.

Section StrongArmLatch_supplies.

Import StrongArmLatch.

Variable base : LaygoBase.
Variable self : params.

(** X20: the dummies of [StrongArmLatch] are tied off.  The template makes
    four supply pins, two on VSS and two on VDD; every instance whose gate is
    on the wires of a supply pin has its drain on the same wires, and the pin
    is VDD for the pmos row (row 4) and VSS for the nmos rows. *)
Theorem StrongArmLatch_dummies_tied_off :
  let pins := pins_of (draw_layout base self) in
  map fst pins = ["VSS"; "VSS"; "VDD"; "VDD"]
  ∧ Forall (λ '(net, wires),
      Forall (λ '(i, port),
        port = "g" →
        (i, "d") ∈ wires
        ∧ net = (if inst_row i =? 4 then "VDD" else "VSS")
        ∧ lp_blk_type (inst_prim i) = "fg2d") wires) pins.
Proof.
  intros pins. subst pins. split; [reflexivity|].
  unfold pins_of, draw_layout; simpl.
  repeat (apply Forall_cons; split); try apply Forall_nil_2;
    try (intros Hg; discriminate Hg).
  all: intros _; split; [|split; reflexivity].
  all: repeat first [apply list_elem_of_here | apply list_elem_of_further].
Qed.

(** A run of the template: the pmos row of a latch with four nmos, one pmos
    and one dummy block per side is eleven columns wide. *)
Example StrongArmLatch_draw_layout_demo :
  let calls := draw_layout demo_laygo demo_strongarm in
  laygo_size calls = Some 11
  ∧ map (λ i, (inst_col i, num_prims i)) (placed_in_row 4 calls)
    = [(0, 2); (2, 1); (3, 1); (4, 1); (5, 1); (6, 1); (7, 1); (8, 1); (9, 2)]
  ∧ map (λ i, (inst_col i, num_prims i)) (placed_in_row 3 calls)
    = [(0, 0); (0, 1); (1, 4); (5, 1); (6, 4); (10, 1); (11, 0)]
  ∧ explicit_tracks calls = [(4, 2); (4, 2); (4, 3); (4, 3)].
Proof. repeat split. Qed.

End StrongArmLatch_supplies.

(** ** test_scripts/stack_driver.py: StackDriver *)

Section StackDriver_more.

Import StackDriver.

Variable base : LaygoBase.
Variable self : params.

(** X21: [StackDriver.draw_layout] raises ValueError, before it places
    anything, when the technology's [fg2d_s_short] is false.  Otherwise it
    sizes the block to [tot_blk = 2 * num_dblk + num_blk] columns; the two
    substrate rows span them all; the pmos row and the nmos row are placed
    alike, with the left and right flavours of the primitive exchanged; and
    the primitives a transistor row asks for number [tot_blk] when
    [tot_blk] is even but only [tot_blk - 1] when it is odd. *)
Theorem StackDriver_draw_layout_spec :
  let tot_blk := 2 * num_dblk self + num_blk self in
  (py_truthy (fg2d_s_short base) = false →
   draw_layout base self
   = Raise (ValueError
              "This template current only works if source wires of fg2d are shorted."))
  ∧ (py_truthy (fg2d_s_short base) = true →
     ∃ calls,
       draw_layout base self = Ok calls
       ∧ laygo_size calls = Some tot_blk
       ∧ tiles 0 (placed_in_row 0 calls) tot_blk
       ∧ tiles 0 (placed_in_row 3 calls) tot_blk
       ∧ map inst_prim (placed_in_row 1 calls)
         = map (λ i, mirror_prim 1 (inst_prim i)) (placed_in_row 2 calls)
       ∧ prims_in_row 1 calls = prims_in_row 2 calls
       ∧ (Z.even tot_blk = true → prims_in_row 1 calls = tot_blk)
       ∧ (Z.odd tot_blk = true → prims_in_row 1 calls = tot_blk - 1)).
Proof.
  intros tot_blk. subst tot_blk. unfold draw_layout. split.
  - intros ->. reflexivity.
  - intros ->. simpl. eexists. split; [reflexivity|].
    unfold prims_in_row, placed_in_row, placed, inst_row; simpl.
    unfold inst_col, num_prims, add_laygo_primitive; simpl.
    split; [reflexivity|]. split; [lia|]. split; [lia|].
    split; [reflexivity|]. split; [reflexivity|].
    split; intros Hpar.
    + apply Z.even_spec in Hpar as [k Hk]. rewrite Hk.
      replace (2 * k - 2) with ((k - 1) * 2) by lia.
      rewrite Z.div_mul by lia. lia.
    + apply Z.odd_spec in Hpar as [k Hk]. rewrite Hk.
      replace (2 * k + 1 - 2) with (1 + (k - 1) * 2) by lia.
      rewrite Z.div_add by lia. change (1 `div` 2) with 0. lia.
Qed.

(** Two runs of the template: six columns are filled, of seven columns the
    transistor rows fill six. *)
Example StackDriver_draw_layout_demo :
  (prims_in_row 2 <$> draw_layout demo_laygo (demo_stack_driver 4)) = Ok 6
  ∧ (laygo_size <$> draw_layout demo_laygo (demo_stack_driver 4)) = Ok (Some 6)
  ∧ (prims_in_row 2 <$> draw_layout demo_laygo (demo_stack_driver 5)) = Ok 6
  ∧ (laygo_size <$> draw_layout demo_laygo (demo_stack_driver 5)) = Ok (Some 7).
Proof. repeat split. Qed.

End StackDriver_more.
